(** * express-jobly: the SQL builders of the record-access modules

    A shallow embedding of the clause builders and validators of
    [models/company.js], of the two revisions of the job model, of
    [User.updateJobApplication], and of the partial-update helper the
    models call.

    Conventions of the embedding.
    - A JavaScript object used as a criteria map is a [gmap string value];
      reading a property that is absent gives [JUndefined].
    - A JavaScript number is an integer [JNum z] or [JNaN]: the numbers a
      test or a caller passes as bounds and ids.  The model prints and
      reads integers exactly, digit by digit; the runtime does so for the
      safe integers (up to 2^53 - 1 in magnitude), and the statements that
      send a number through [parseInt] or a template literal carry that
      bound.
    - The id columns of the tables hold 32-bit integers; a statement about
      an id that no row holds carries that range.
    - Strings are sequences of ASCII characters.
    - A function that throws returns [Throw e]; one that returns returns
      [Ok a]. *)

From Stdlib Require Import ZArith Lia Ascii String DecimalString.
From Stdlib Require DecimalPos.
From stdpp Require Import base strings list gmap.

Open Scope string_scope.

(** ** Values, errors, results *)

Inductive value : Type :=
| JUndefined
| JNum (z : Z)
| JNaN
| JStr (s : string).

#[global] Instance value_eq_dec : EqDecision value.
Proof. solve_decision. Defined.

Inductive error : Type :=
| BadRequestError (message : string)
| NotFoundError (message : string).

Inductive result (A : Type) : Type :=
| Ok (a : A)
| Throw (e : error).
Arguments Ok {A} a.
Arguments Throw {A} e.

Definition bind {A B : Type} (r : result A) (k : A -> result B) : result B :=
  match r with
  | Ok a => k a
  | Throw e => Throw e
  end.

Definition is_bad_request {A : Type} (r : result A) : Prop :=
  exists message, r = Throw (BadRequestError message).

(** ** The pieces of the runtime the models rely on *)

Module Js.

(** The double quote character. *)
Definition dquote : string := String (ascii_of_nat 34) EmptyString.

(** [params.key] and the destructuring [const {key} = params]. *)
Definition get (params : gmap string value) (key : string) : value :=
  default JUndefined (params !! key).

(** The keys a [for (let key in params)] loop visits. *)
Definition keys (params : gmap string value) : list string :=
  (map_to_list params).*1.

(** ToBoolean: [undefined], [0], [NaN] and the empty string are falsy. *)
Definition truthy (v : value) : bool :=
  match v with
  | JUndefined => false
  | JNum z => negb (z =? 0)%Z
  | JNaN => false
  | JStr s => negb (bool_decide (s = EmptyString))
  end.

(** [a === b]: [NaN] is not equal to itself. *)
Definition strict_eq (a b : value) : bool :=
  match a, b with
  | JNaN, _ | _, JNaN => false
  | _, _ => bool_decide (a = b)
  end.

(** Number to string, for the integers. *)
Definition showNat (n : nat) : string := NilEmpty.string_of_uint (Nat.to_uint n).
Definition showZ (z : Z) : string := NilEmpty.string_of_int (Z.to_int z).

(** ToString, as a template literal applies it. *)
Definition toString (v : value) : string :=
  match v with
  | JUndefined => "undefined"
  | JNum z => showZ z
  | JNaN => "NaN"
  | JStr s => s
  end.

(** [Array.prototype.indexOf]: the first position of [x], or -1. *)
Fixpoint indexOf (l : list string) (x : string) : Z :=
  match l with
  | [] => (-1)%Z
  | y :: rest =>
      if bool_decide (y = x) then 0%Z
      else let i := indexOf rest x in if (i <? 0)%Z then (-1)%Z else (i + 1)%Z
  end.

(** [Array.prototype.push], on both arrays of a builder at once. *)
Definition push {A : Type} (arr : list A) (x : A) : list A := arr ++ [x].

(** [Array.prototype.join]. *)
Definition join (sep : string) (arr : list string) : string := String.concat sep arr.

(** *** parseInt *)

Definition is_space (c : ascii) : bool :=
  let n := nat_of_ascii c in
  ((n =? 9) || (n =? 10) || (n =? 11) || (n =? 12) || (n =? 13) || (n =? 32))%nat.

Fixpoint skip_spaces (s : string) : string :=
  match s with
  | String c rest => if is_space c then skip_spaces rest else s
  | EmptyString => s
  end.

Definition digit_value (c : ascii) : option Z :=
  let n := Z.of_nat (nat_of_ascii c) in
  if (48 <=? n)%Z && (n <=? 57)%Z then Some (n - 48)%Z
  else if (97 <=? n)%Z && (n <=? 122)%Z then Some (n - 87)%Z
  else if (65 <=? n)%Z && (n <=? 90)%Z then Some (n - 55)%Z
  else None.

(** The longest prefix of digits of the radix; [None] when it is empty. *)
Fixpoint digits (radix : Z) (s : string) (acc : option Z) : option Z :=
  match s with
  | String c rest =>
      match digit_value c with
      | Some d =>
          if (d <? radix)%Z then digits radix rest (Some (default 0%Z acc * radix + d)%Z)
          else acc
      | None => acc
      end
  | EmptyString => acc
  end.

Definition strip_sign (s : string) : Z * string :=
  match s with
  | String c rest =>
      if bool_decide (c = "-"%char) then ((-1)%Z, rest)
      else if bool_decide (c = "+"%char) then (1%Z, rest)
      else (1%Z, s)
  | EmptyString => (1%Z, s)
  end.

Definition strip_radix (s : string) : Z * string :=
  match s with
  | String c0 (String c1 rest) =>
      if bool_decide (c0 = "0"%char) && (bool_decide (c1 = "x"%char) || bool_decide (c1 = "X"%char))
      then (16%Z, rest) else (10%Z, s)
  | _ => (10%Z, s)
  end.

(** [parseInt(v)] with no radix argument: the argument is converted to a
    string, leading white space and a sign are removed, a [0x] prefix
    selects radix 16, and the longest prefix of digits is read. *)
Definition parseInt (v : value) : value :=
  let '(sign, s) := strip_sign (skip_spaces (toString v)) in
  let '(radix, s) := strip_radix s in
  match digits radix s None with
  | Some n => JNum (sign * n)
  | None => JNaN
  end.

(** *** The relational operator [>]

    Two strings are compared character by character, two numbers as
    numbers.  When one operand is a string and the other a number the
    runtime converts the string to a floating-point number first; that
    conversion is the parameter [string_vs_num]: the order of the
    converted string relative to the integer, [None] when the string
    converts to [NaN]. *)
Section Relational.
Variable string_vs_num : string -> Z -> option comparison.

Definition gt (a b : value) : bool :=
  match a, b with
  | JNum x, JNum y => (y <? x)%Z
  | JStr s, JStr t => String.ltb t s
  | JStr s, JNum y => bool_decide (string_vs_num s y = Some Gt)
  | JNum x, JStr t => bool_decide (string_vs_num t x = Some Lt)
  | _, _ => false
  end.
End Relational.

End Js.

(** ** What the builders return and what reaches the database *)

(** [{statement, values}], the result of a search-clause builder. *)
Record searchSql : Type := { statement : string; values : list value }.

(** One call [db.query(text, binds)]. *)
Record query : Type := { text : string; binds : list value }.

(** The loop [for (let key in params)] of every [checkCriteria]: the first
    key that is not in [criteria] throws. *)
Fixpoint checkKeys (criteria : list string) (keys : list string) : result unit :=
  match keys with
  | [] => Ok tt
  | key :: rest =>
      if (Js.indexOf criteria key <? 0)%Z
      then Throw (BadRequestError "Invalid search criteria.")
      else checkKeys criteria rest
  end.

Definition nl : string := String (ascii_of_nat 10) EmptyString.

(** ** The rows of the tables the models read

    The columns are those the statements of the models name.  A column
    that a test shows as [null] holds an option. *)

Module Db.

(** A row of [companies]. *)
Record company : Type :=
  { handle : string; name : string; description : string;
    num_employees : option Z; logo_url : option string }.

(** A row of [jobs]; the driver returns [equity], a NUMERIC, as text. *)
Record job : Type :=
  { id : Z; title : string; salary : option Z; equity : option string;
    company_handle : string }.

(** A row of [users]. *)
Record user : Type :=
  { username : string; password : string; first_name : string;
    last_name : string; email : string; is_admin : bool }.

End Db.

(** ** models/company.js *)

Module Company.

Definition criteria : list string := ["name"; "minEmployees"; "maxEmployees"].

Section CheckCriteria.
Variable string_vs_num : string -> Z -> option comparison.

(** [Company.checkCriteria(params)]. *)
Definition checkCriteria (params : gmap string value) : result unit :=
  let minEmployees := Js.get params "minEmployees" in
  let maxEmployees := Js.get params "maxEmployees" in
  bind (checkKeys criteria (Js.keys params)) (fun _ =>
  if Js.truthy minEmployees && Js.truthy maxEmployees then
    if Js.gt string_vs_num minEmployees maxEmployees
    then Throw (BadRequestError "Max employees must be greater than min employees")
    else Ok tt
  else Ok tt).
End CheckCriteria.

(** The two arrays [sqlStatement] and [sqlValues] when the three [if]
    blocks of [Company.createSearchSqlStatement] have run. *)
Definition searchArrays (params : gmap string value) : list string * list value :=
  let name := Js.get params "name" in
  let minEmployees := Js.get params "minEmployees" in
  let maxEmployees := Js.get params "maxEmployees" in
  let sqlStatement : list string := [] in
  let sqlValues : list value := [] in
  let '(sqlStatement, sqlValues) :=
    if Js.truthy minEmployees
    then (Js.push sqlStatement ("num_employees >= $" +:+ Js.showNat (length sqlStatement + 1)),
          Js.push sqlValues (Js.parseInt minEmployees))
    else (sqlStatement, sqlValues) in
  let '(sqlStatement, sqlValues) :=
    if Js.truthy maxEmployees
    then (Js.push sqlStatement ("num_employees <= $" +:+ Js.showNat (length sqlStatement + 1)),
          Js.push sqlValues (Js.parseInt maxEmployees))
    else (sqlStatement, sqlValues) in
  let '(sqlStatement, sqlValues) :=
    if Js.truthy name
    then (Js.push sqlStatement ("name ILIKE $" +:+ Js.showNat (length sqlStatement + 1)),
          Js.push sqlValues (JStr ("%" +:+ Js.toString name +:+ "%")))
    else (sqlStatement, sqlValues) in
  (sqlStatement, sqlValues).

(** [Company.createSearchSqlStatement(params)]. *)
Definition createSearchSqlStatement (params : gmap string value) : searchSql :=
  let '(sqlStatement, sqlValues) := searchArrays params in
  let outStatement := Js.join " AND " sqlStatement in
  {| statement := outStatement; values := sqlValues |}.

(** The template literal [querySql] of [Company.filter]. *)
Definition querySql (statement : string) : string :=
  "SELECT handle," +:+ nl +:+
  "                             name," +:+ nl +:+
  "                             description," +:+ nl +:+
  "                             num_employees AS " +:+ Js.dquote +:+ "numEmployees" +:+ Js.dquote +:+ "," +:+ nl +:+
  "                             logo_url AS " +:+ Js.dquote +:+ "logoUrl" +:+ Js.dquote +:+ nl +:+
  "                        FROM companies" +:+ nl +:+
  "                        WHERE " +:+ statement +:+ nl +:+
  "                      ".

Section Filter.
Context {row : Type}.
Variable string_vs_num : string -> Z -> option comparison.
(** The rows the database answers to a query. *)
Variable db_query : string -> list value -> list row.

(** [Company.filter(params)]: the outcome, and the calls made to the
    database in the order they were made. *)
Definition filter (params : gmap string value) : result (list row) * list query :=
  match checkCriteria string_vs_num params with
  | Throw e => (Throw e, [])
  | Ok _ =>
      let c := createSearchSqlStatement params in
      let sql := querySql (statement c) in
      (Ok (db_query sql (values c)), [{| text := sql; binds := values c |}])
  end.
End Filter.

(** One element of [company.jobs]: the columns [id, title, salary, equity]. *)
Record jobSummary : Type :=
  { id : Z; title : string; salary : option Z; equity : option string }.

(** What [Company.get] returns: the columns of the company
    ([num_employees] and [logo_url] under the names [numEmployees] and
    [logoUrl]) and, when it was set, the property [jobs]. *)
Record detail : Type :=
  { company : Db.company; jobs : option (list jobSummary) }.

Definition summary (j : Db.job) : jobSummary :=
  {| id := Db.id j; title := Db.title j; salary := Db.salary j; equity := Db.equity j |}.

(** [Company.get(handle)] on the tables [companies] and [jobs]. *)
Definition get (companies : list Db.company) (jobsTable : list Db.job)
    (handle : string) : result detail :=
  let companyRes :=
    List.filter (fun c => bool_decide (Db.handle c = handle)) companies in
  match head companyRes with
  | None => Throw (NotFoundError ("No company: " +:+ handle))
  | Some company =>
      let jobRes :=
        List.filter (fun j => bool_decide (Db.company_handle j = handle)) jobsTable in
      let jobs := map summary jobRes in
      if (0 <? length jobs)%nat
      then Ok {| company := company; jobs := Some jobs |}
      else Ok {| company := company; jobs := None |}
  end.

End Company.

(** ** The job model, complete revision (the one that exports [Job]) *)

Module Job.

Definition criteria : list string := ["title"; "minSalary"; "hasEquity"].

(** [Job.checkCriteria(params)]. *)
Definition checkCriteria (params : gmap string value) : result unit :=
  bind (checkKeys criteria (Js.keys params)) (fun _ =>
  let hasEquity := Js.get params "hasEquity" in
  if Js.truthy hasEquity then
    if negb (Js.strict_eq hasEquity (JStr "true")) && negb (Js.strict_eq hasEquity (JStr "false"))
    then Throw (BadRequestError "Invalid value for has equity")
    else Ok tt
  else Ok tt).

(** The two arrays [sqlStatement] and [sqlValues] when the three [if]
    blocks of [Job.createSearchSqlStatement] have run. *)
Definition searchArrays (params : gmap string value) : list string * list value :=
  let title := Js.get params "title" in
  let minSalary := Js.get params "minSalary" in
  let hasEquity := Js.get params "hasEquity" in
  let sqlStatement : list string := [] in
  let sqlValues : list value := [] in
  let '(sqlStatement, sqlValues) :=
    if Js.truthy title
    then (Js.push sqlStatement ("title ILIKE $" +:+ Js.showNat (length sqlStatement + 1)),
          Js.push sqlValues (JStr ("%" +:+ Js.toString title +:+ "%")))
    else (sqlStatement, sqlValues) in
  let '(sqlStatement, sqlValues) :=
    if Js.truthy minSalary
    then (Js.push sqlStatement ("salary >= $" +:+ Js.showNat (length sqlStatement + 1)),
          Js.push sqlValues (Js.parseInt minSalary))
    else (sqlStatement, sqlValues) in
  let '(sqlStatement, sqlValues) :=
    if Js.strict_eq hasEquity (JStr "true")
    then (Js.push sqlStatement ("equity > $" +:+ Js.showNat (length sqlStatement + 1)),
          Js.push sqlValues (JStr "0"))
    else (sqlStatement, sqlValues) in
  (sqlStatement, sqlValues).

(** [Job.createSearchSqlStatement(params)]. *)
Definition createSearchSqlStatement (params : gmap string value) : searchSql :=
  let '(sqlStatement, sqlValues) := searchArrays params in
  let outStatement := Js.join " AND " sqlStatement in
  {| statement := outStatement; values := sqlValues |}.

(** The template literal [querySql] of [Job.filter]. *)
Definition querySql (statement : string) : string :=
  "SELECT id," +:+ nl +:+
  "                             title," +:+ nl +:+
  "                             salary," +:+ nl +:+
  "                             equity," +:+ nl +:+
  "                             company_handle AS " +:+ Js.dquote +:+ "companyHandle" +:+ Js.dquote +:+ nl +:+
  "                      FROM jobs" +:+ nl +:+
  "                      WHERE " +:+ statement.

Section Filter.
Context {row : Type}.
Variable db_query : string -> list value -> list row.

(** [Job.filter(params)]: the outcome, and the calls made to the database. *)
Definition filter (params : gmap string value) : result (list row) * list query :=
  match checkCriteria params with
  | Throw e => (Throw e, [])
  | Ok _ =>
      let c := createSearchSqlStatement params in
      let sql := querySql (statement c) in
      (Ok (db_query sql (values c)), [{| text := sql; binds := values c |}])
  end.
End Filter.

(** [Job.get(id)] on the table [jobs], for a numeric id that the id
    column admits (the database refuses any other). *)
Definition get (jobs : list Db.job) (id : Z) : result Db.job :=
  let result := List.filter (fun j => bool_decide (Db.id j = id)) jobs in
  match head result with
  | None => Throw (NotFoundError ("No job with id: " +:+ Js.toString (JNum id) +:+ "."))
  | Some job => Ok job
  end.

End Job.

(** ** The job model, earlier revision (first text of the same file: it has
       no export, and its [filter] stops after building the clause) *)

Module JobDraft.

Definition criteria : list string := ["title"; "minSalary"; "hasEquity"].

(** [checkCriteria] of the earlier revision: the two tests on [hasEquity]
    are joined by [||]. *)
Definition checkCriteria (params : gmap string value) : result unit :=
  bind (checkKeys criteria (Js.keys params)) (fun _ =>
  let hasEquity := Js.get params "hasEquity" in
  if Js.truthy hasEquity then
    if negb (Js.strict_eq hasEquity (JStr "true")) || negb (Js.strict_eq hasEquity (JStr "false"))
    then Throw (BadRequestError "Invalid value for has equity")
    else Ok tt
  else Ok tt).

(** The arrays of the earlier [createSearchSqlStatement]: the equity
    fragment is written with [>=]. *)
Definition searchArrays (params : gmap string value) : list string * list value :=
  let title := Js.get params "title" in
  let minSalary := Js.get params "minSalary" in
  let hasEquity := Js.get params "hasEquity" in
  let sqlStatement : list string := [] in
  let sqlValues : list value := [] in
  let '(sqlStatement, sqlValues) :=
    if Js.truthy title
    then (Js.push sqlStatement ("title ILIKE $" +:+ Js.showNat (length sqlStatement + 1)),
          Js.push sqlValues (JStr ("%" +:+ Js.toString title +:+ "%")))
    else (sqlStatement, sqlValues) in
  let '(sqlStatement, sqlValues) :=
    if Js.truthy minSalary
    then (Js.push sqlStatement ("salary >= $" +:+ Js.showNat (length sqlStatement + 1)),
          Js.push sqlValues (Js.parseInt minSalary))
    else (sqlStatement, sqlValues) in
  let '(sqlStatement, sqlValues) :=
    if Js.strict_eq hasEquity (JStr "true")
    then (Js.push sqlStatement ("equity >= $" +:+ Js.showNat (length sqlStatement + 1)),
          Js.push sqlValues (JStr "0"))
    else (sqlStatement, sqlValues) in
  (sqlStatement, sqlValues).

Definition createSearchSqlStatement (params : gmap string value) : searchSql :=
  let '(sqlStatement, sqlValues) := searchArrays params in
  let outStatement := Js.join " AND " sqlStatement in
  {| statement := outStatement; values := sqlValues |}.

(** [filter] of the earlier revision: validate, build, and return nothing;
    no call reaches the database. *)
Definition filter (params : gmap string value) : result unit * list query :=
  match checkCriteria params with
  | Throw e => (Throw e, [])
  | Ok _ =>
      let c := createSearchSqlStatement params in
      (Ok tt, [])
  end.

End JobDraft.

(** ** [User.updateJobApplication] and the applications table *)

Module User.

(** A row of [applications]. *)
Record application : Type :=
  { username : string; job_id : Z; current_state : string }.

Inductive column : Type := col_username | col_job_id | col_current_state.

Definition cell (c : column) (r : application) : value :=
  match c with
  | col_username => JStr (username r)
  | col_job_id => JNum (job_id r)
  | col_current_state => JStr (current_state r)
  end.

(** A [WHERE c1=$1 AND c2=$2 ...] restriction, with its bind values; the
    empty list is a statement without [WHERE]. *)
Definition satisfies (restriction : list (column * value)) (r : application) : bool :=
  forallb (fun cv => bool_decide (cell (fst cv) r = snd cv)) restriction.

(** [SELECT ... FROM applications WHERE ...]: the rows, in table order. *)
Definition select_rows (restriction : list (column * value))
    (table : list application) : list application :=
  List.filter (satisfies restriction) table.

Definition set_state (newState : string) (r : application) : application :=
  {| username := username r; job_id := job_id r; current_state := newState |}.

(** [UPDATE applications SET current_state=$1 [WHERE ...] RETURNING ...]:
    the table afterwards, and the rows returned (the updated ones, in
    table order). *)
Definition update_rows (newState : string) (restriction : list (column * value))
    (table : list application) : list application * list application :=
  (map (fun r => if satisfies restriction r then set_state newState r else r) table,
   map (set_state newState) (List.filter (satisfies restriction) table)).

(** [User.updateJobApplication(username, jobId, newState)] run on a table:
    what it returns ([None] is [undefined]) and the table afterwards. *)
Definition updateJobApplication (username : string) (jobId : Z) (newState : string)
    (table : list application) : result (option application) * list application :=
  let result := select_rows [(col_username, JStr username); (col_job_id, JNum jobId)] table in
  let application := head result in
  match application with
  | None => (Throw (NotFoundError "Application not found"), table)
  | Some _ =>
      let '(table', rows) := update_rows newState [] table in
      let updatedApp := head rows in
      (Ok updatedApp, table')
  end.

(** What [User.get] returns: five columns of the user and, when it was
    set, the property [jobs], the ids of the jobs applied to. *)
Record profile : Type :=
  { profile_username : string; firstName : string; lastName : string;
    email : string; isAdmin : bool; jobs : option (list Z) }.

(** [User.get(username)] on the tables [users] and [applications]. *)
Definition get (users : list Db.user) (applications : list application)
    (username : string) : result profile :=
  let userRes := List.filter (fun u => bool_decide (Db.username u = username)) users in
  match head userRes with
  | None => Throw (NotFoundError ("No user: " +:+ username))
  | Some user =>
      let jobs := select_rows [(col_username, JStr username)] applications in
      let jobIds := map job_id jobs in
      Ok {| profile_username := Db.username user; firstName := Db.first_name user;
            lastName := Db.last_name user; email := Db.email user;
            isAdmin := Db.is_admin user;
            jobs := if (0 <? length jobs)%nat then Some jobIds else None |}
  end.

(** How a call that writes ends: the function returns or throws, or the
    database refuses a bind value and raises an error of its own. *)
Inductive outcome (A : Type) : Type :=
| Done (r : result A)
| DatabaseError.
Arguments Done {A} r.
Arguments DatabaseError {A}.

(** [INSERT INTO applications (username, job_id, current_state)
    VALUES ($1, $2, 'applied') RETURNING ...]: the row added, when the
    bind values have the types of the columns. *)
Definition insert_applied (u j : value) : option application :=
  match u, j with
  | JStr name, JNum n =>
      Some {| username := name; job_id := n; current_state := "applied" |}
  | _, _ => None
  end.

(** [User.applyForJob(username, jobId)] for a numeric [jobId] that the id
    column admits: how the call ends, and the table [applications]
    afterwards.  The two tests [!user] and [!job] are on objects, which
    are truthy. *)
Definition applyForJob (users : list Db.user) (jobs : list Db.job)
    (applications : list application) (username : string) (jobId : Z)
    : outcome application * list application :=
  match get users applications username with
  | Throw e => (Done (Throw e), applications)
  | Ok user =>
  match Job.get jobs jobId with
  | Throw e => (Done (Throw e), applications)
  | Ok job =>
      let duplicateCheck :=
        select_rows [(col_username, JStr username);
                     (col_job_id, Js.parseInt (JNum jobId))] applications in
      match head duplicateCheck with
      | Some _ =>
          (Done (Throw (BadRequestError
                   ("Duplicate application: " +:+ username +:+ " for job id "
                    +:+ Js.toString (JNum jobId)))),
           applications)
      | None =>
          match insert_applied (JStr username) (Js.parseInt (JNum jobId)) with
          | Some application =>
              (Done (Ok application), (applications ++ [application])%list)
          | None => (DatabaseError, applications)
          end
      end
  end
  end.

End User.

(** ** helpers/sql.js *)

Module Sql.

(** [{setCols, values}]. *)
Record partialUpdate : Type := { setCols : string; values : list value }.

(** The column a key is stored under: the field map's entry, or the key
    itself when the map has none. *)
Definition column (jsToSql : gmap string string) (key : string) : string :=
  default key (jsToSql !! key).

(** One fragment, a quoted column bound to a positional placeholder. *)
Definition fragment (col : string) (idx : nat) : string :=
  Js.dquote +:+ col +:+ Js.dquote +:+ "=$" +:+ Js.showNat idx.

(** One pass over the entries of the payload in iteration order: [idx] is
    the placeholder of the next entry, [cols] and [vals] what has been
    appended so far. *)
Fixpoint collect (jsToSql : gmap string string) (entries : list (string * value))
    (idx : nat) (cols : list string) (vals : list value) : list string * list value :=
  match entries with
  | [] => (cols, vals)
  | (key, v) :: rest =>
      collect jsToSql rest (S idx)
        (Js.push cols (fragment (column jsToSql key) idx)) (Js.push vals v)
  end.

(** Modelled from the spec: helpers/sql.js, which defines
    [sqlForPartialUpdate], is not among the sources (its test
    helpers/sql.test.js and its callers are).  The payload is its list of
    entries in iteration order.  An empty payload fails; otherwise each
    entry appends one fragment with the next 1-based index and one value,
    and the fragments are joined as in the example of the spec and of the
    test.  The text of the error message is not fixed by the spec. *)
Definition sqlForPartialUpdate (dataToUpdate : list (string * value))
    (jsToSql : gmap string string) : result partialUpdate :=
  match dataToUpdate with
  | [] => Throw (BadRequestError "No data")
  | _ :: _ =>
      let '(cols, vals) := collect jsToSql dataToUpdate 1 [] [] in
      Ok {| setCols := Js.join ", " cols; values := vals |}
  end.

End Sql.

(** ** Vocabulary of the properties *)

(** Every key of the map is one of the recognized criteria. *)
Definition recognized (criteria : list string) (params : gmap string value) : Prop :=
  forall key, is_Some (params !! key) -> key ∈ criteria.

(** Every value of the map is falsy. *)
Definition all_falsy (params : gmap string value) : Prop :=
  forall key v, params !! key = Some v -> Js.truthy v = false.

(** The fragments that a list of stems gives when their placeholders
    are numbered 1, 2, ... in order. *)
Definition numbered (stems : list string) : list string :=
  imap (fun i stem => stem +:+ "$" +:+ Js.showNat (S i)) stems.

(** The number of placeholder marks in a text. *)
Fixpoint placeholders (s : string) : nat :=
  match s with
  | EmptyString => 0
  | String c rest => (if bool_decide (c = "$"%char) then 1 else 0) + placeholders rest
  end.

(** One criterion of an entity: whether the map makes it emit a fragment,
    the stem of that fragment (its text up to the placeholder), and the value it binds. *)
Record criterion : Type := { active : bool; stem : string; bound : value }.

(** The criteria of a table that emit, in the order of the table. *)
Definition emitted (table : list criterion) : list criterion :=
  List.filter active table.

(** The clause a table of criteria describes: one fragment per emitting
    criterion, numbered in order, and its bind value at the same position. *)
Definition clause_of (table : list criterion) : list string * list value :=
  (numbered (stem <$> emitted table), bound <$> emitted table).

(** The declared precedence of the job criteria: title, then minSalary,
    then hasEquity. *)
Definition jobPrecedence (params : gmap string value) : list criterion :=
  [ {| active := Js.truthy (Js.get params "title");
       stem := "title ILIKE ";
       bound := JStr ("%" +:+ Js.toString (Js.get params "title") +:+ "%") |};
    {| active := Js.truthy (Js.get params "minSalary");
       stem := "salary >= ";
       bound := Js.parseInt (Js.get params "minSalary") |};
    {| active := Js.strict_eq (Js.get params "hasEquity") (JStr "true");
       stem := "equity > ";
       bound := JStr "0" |} ].

(** The declared precedence of the company criteria: minEmployees, then
    maxEmployees, then name. *)
Definition companyPrecedence (params : gmap string value) : list criterion :=
  [ {| active := Js.truthy (Js.get params "minEmployees");
       stem := "num_employees >= ";
       bound := Js.parseInt (Js.get params "minEmployees") |};
    {| active := Js.truthy (Js.get params "maxEmployees");
       stem := "num_employees <= ";
       bound := Js.parseInt (Js.get params "maxEmployees") |};
    {| active := Js.truthy (Js.get params "name");
       stem := "name ILIKE ";
       bound := JStr ("%" +:+ Js.toString (Js.get params "name") +:+ "%") |} ].

(** A clause agrees with a table of criteria: its statement joins the
    fragments of the emitting criteria, numbered 1, 2, ... in the order of
    the table; its values are their bind values in the same order; there
    are as many placeholders as values; and the fragment at position [i]
    carries placeholder [i + 1], next to the value at position [i]. *)
Definition aligned (table : list criterion) (c : searchSql) : Prop :=
  let fired := emitted table in
  let fragments := numbered (stem <$> fired) in
  sublist fired table /\
  statement c = Js.join " AND " fragments /\
  values c = bound <$> fired /\
  length fragments = length (values c) /\
  placeholders (statement c) = length (values c) /\
  forall i cr, fired !! i = Some cr ->
    fragments !! i = Some (stem cr +:+ "$" +:+ Js.showNat (S i)) /\
    values c !! i = Some (bound cr).

(** The bound-consistency rule read for every map that holds both bounds:
    validation fails when the lower bound exceeds the upper one and succeeds
    otherwise, the bounds being the integers the builder binds. *)
Definition bounds_always_compared : Prop :=
  forall (string_vs_num : string -> Z -> option comparison)
         (params : gmap string value) (lo hi : Z),
    recognized Company.criteria params ->
    is_Some (params !! "minEmployees") ->
    is_Some (params !! "maxEmployees") ->
    Js.parseInt (Js.get params "minEmployees") = JNum lo ->
    Js.parseInt (Js.get params "maxEmployees") = JNum hi ->
    ((hi < lo)%Z -> is_bad_request (Company.checkCriteria string_vs_num params)) /\
    ((lo <= hi)%Z -> Company.checkCriteria string_vs_num params = Ok tt).

(** The job example of the tests: a minimum salary and a title. *)
Definition job_example : gmap string value :=
  {[ "minSalary" := JNum 2; "title" := JStr "j2" ]}.

(** The texts a job search statement can be. *)
Definition jobStatements : list string :=
  [ EmptyString;
    "equity > $1";
    "salary >= $1";
    "salary >= $1 AND equity > $2";
    "title ILIKE $1";
    "title ILIKE $1 AND equity > $2";
    "title ILIKE $1 AND salary >= $2";
    "title ILIKE $1 AND salary >= $2 AND equity > $3" ].

(** The texts a company search statement can be. *)
Definition companyStatements : list string :=
  [ EmptyString;
    "name ILIKE $1";
    "num_employees <= $1";
    "num_employees <= $1 AND name ILIKE $2";
    "num_employees >= $1";
    "num_employees >= $1 AND name ILIKE $2";
    "num_employees >= $1 AND num_employees <= $2";
    "num_employees >= $1 AND num_employees <= $2 AND name ILIKE $3" ].

(** The user and the job an application is for. *)
Definition application_key (r : User.application) : string * Z :=
  (User.username r, User.job_id r).

(** Some application in the table is of this user for this job. *)
Definition applied (applications : list User.application)
    (username : string) (jobId : Z) : Prop :=
  exists r, r ∈ applications /\ User.username r = username /\ User.job_id r = jobId.

(** Every application is of a user of [users] for a job of [jobs]. *)
Definition references_exist (users : list Db.user) (jobs : list Db.job)
    (applications : list User.application) : Prop :=
  forall r, r ∈ applications ->
    (exists u, u ∈ users /\ Db.username u = User.username r) /\
    (exists j, j ∈ jobs /\ Db.id j = User.job_id r).

(** The integers the runtime holds, prints and reads exactly. *)
Definition safe_integer (z : Z) : Prop :=
  (-9007199254740991 <= z <= 9007199254740991)%Z.

(** The values of the INTEGER type of the id columns. *)
Definition column_integer (z : Z) : Prop :=
  (-2147483648 <= z <= 2147483647)%Z.

(** The row [User.applyForJob] adds. *)
Definition new_application (username : string) (jobId : Z) : User.application :=
  {| User.username := username; User.job_id := jobId; User.current_state := "applied" |}.

(** * Properties *)

(** ** The key loop *)

Lemma indexOf_nonneg (l : list string) (x : string) :
  x ∈ l -> (Js.indexOf l x <? 0)%Z = false.
Proof.
  induction l as [|y l IH]; intros Hin.
  - inversion Hin.
  - simpl. case_bool_decide as Hy; [reflexivity|].
    apply elem_of_cons in Hin as [->|Hin]; [congruence|].
    rewrite (IH Hin). apply Z.ltb_ge.
    specialize (IH Hin). apply Z.ltb_ge in IH. lia.
Qed.

Lemma indexOf_neg (l : list string) (x : string) :
  x ∉ l -> (Js.indexOf l x <? 0)%Z = true.
Proof.
  induction l as [|y l IH]; intros Hnin; [reflexivity|].
  simpl. apply not_elem_of_cons in Hnin as [Hne Hnin].
  case_bool_decide; [congruence|]. rewrite (IH Hnin). reflexivity.
Qed.

Lemma elem_of_keys (params : gmap string value) (key : string) :
  key ∈ Js.keys params <-> is_Some (params !! key).
Proof.
  unfold Js.keys. rewrite list_elem_of_fmap. split.
  - intros [[k v] [-> Hkv]]. apply elem_of_map_to_list in Hkv. eauto.
  - intros [v Hv]. exists (key, v). split; [reflexivity|].
    by apply elem_of_map_to_list.
Qed.

Lemma checkKeys_all (criteria keys : list string) :
  (forall key, key ∈ keys -> key ∈ criteria) -> checkKeys criteria keys = Ok tt.
Proof.
  induction keys as [|k keys IH]; intros Hall; [reflexivity|].
  simpl. rewrite indexOf_nonneg by (apply Hall; left).
  apply IH. intros key Hkey. apply Hall. by right.
Qed.

Lemma checkKeys_some (criteria keys : list string) (key : string) :
  key ∈ keys -> key ∉ criteria ->
  checkKeys criteria keys = Throw (BadRequestError "Invalid search criteria.").
Proof.
  induction keys as [|k keys IH]; intros Hin Hnot.
  - inversion Hin.
  - simpl. destruct (Js.indexOf criteria k <? 0)%Z eqn:Hk; [reflexivity|].
    apply elem_of_cons in Hin as [->|Hin].
    + rewrite indexOf_neg in Hk by assumption. discriminate.
    + by apply IH.
Qed.

Lemma checkKeys_recognized (criteria : list string) (params : gmap string value) :
  recognized criteria params -> checkKeys criteria (Js.keys params) = Ok tt.
Proof.
  intros Hrec. apply checkKeys_all. intros key Hkey.
  apply Hrec. by apply elem_of_keys.
Qed.

Lemma checkKeys_unrecognized (criteria : list string) (params : gmap string value)
    (key : string) :
  is_Some (params !! key) -> key ∉ criteria ->
  checkKeys criteria (Js.keys params) = Throw (BadRequestError "Invalid search criteria.").
Proof.
  intros Hsome Hnot. apply checkKeys_some with key; [|assumption].
  by apply elem_of_keys.
Qed.

(** The outcome of the loop does not depend on the order of the keys. *)
Lemma checkKeys_Permutation (criteria keys keys' : list string) :
  keys ≡ₚ keys' -> checkKeys criteria keys = checkKeys criteria keys'.
Proof.
  intros Hperm.
  destruct (decide (Forall (fun k => k ∈ criteria) keys)) as [Hall|Hex].
  - rewrite !checkKeys_all; [reflexivity| |].
    + intros k Hk. rewrite <- Hperm in Hk. revert k Hk. by apply Forall_forall.
    + by apply Forall_forall.
  - apply not_Forall_Exists in Hex; [|intros k; apply _].
    apply Exists_exists in Hex as (k & Hk & Hnot).
    rewrite (checkKeys_some criteria keys k), (checkKeys_some criteria keys' k);
      try assumption; [reflexivity|]. by rewrite <- Hperm.
Qed.

(** A way to establish [recognized] on a concrete map by evaluation. *)
Lemma recognized_by_keys (criteria : list string) (params : gmap string value) :
  forallb (fun key => bool_decide (key ∈ criteria)) (Js.keys params) = true ->
  recognized criteria params.
Proof.
  intros Hall key Hkey. apply elem_of_keys in Hkey.
  rewrite forallb_forall in Hall. apply list_elem_of_In in Hkey.
  specialize (Hall key Hkey). by apply bool_decide_eq_true in Hall.
Qed.

Lemma checkKeys_cases (criteria keys : list string) :
  checkKeys criteria keys = Ok tt \/
  checkKeys criteria keys = Throw (BadRequestError "Invalid search criteria.").
Proof.
  induction keys as [|k keys IH]; [by left|].
  simpl. destruct (Js.indexOf criteria k <? 0)%Z; [by right|exact IH].
Qed.

Lemma strict_eq_string (v : value) (s : string) :
  Js.strict_eq v (JStr s) = bool_decide (v = JStr s).
Proof. destruct v; reflexivity. Qed.

Lemma get_lookup (params : gmap string value) (key : string) (v : value) :
  params !! key = Some v -> Js.get params key = v.
Proof. unfold Js.get. by intros ->. Qed.

Ltac by_evaluation := vm_compute; reflexivity.
Ltac absent_key := apply (bool_decide_unpack _); vm_compute; exact I.

(** ** Unknown keys *)

(** C5. A criteria map that holds a key outside the recognized set of the
    entity (companies: name, minEmployees, maxEmployees; jobs: title,
    minSalary, hasEquity) fails validation with a BadRequestError, and
    [filter] throws it without a call to the database. *)
Theorem C5_unrecognized_key_rejected
    (string_vs_num : string -> Z -> option comparison)
    (row : Type) (db_query : string -> list value -> list row)
    (params : gmap string value) (key : string) :
  is_Some (params !! key) ->
  (key ∉ Company.criteria ->
     is_bad_request (Company.checkCriteria string_vs_num params) /\
     exists message,
       Company.filter string_vs_num db_query params = (Throw (BadRequestError message), [])) /\
  (key ∉ Job.criteria ->
     is_bad_request (Job.checkCriteria params) /\
     exists message,
       Job.filter db_query params = (Throw (BadRequestError message), [])).
Proof.
  intros Hkey. split; intros Hnot.
  - assert (Company.checkCriteria string_vs_num params
            = Throw (BadRequestError "Invalid search criteria.")) as Hthrow.
    { unfold Company.checkCriteria.
      by rewrite (checkKeys_unrecognized _ _ key Hkey Hnot). }
    split; [by eexists|]. unfold Company.filter. rewrite Hthrow. by eexists.
  - assert (Job.checkCriteria params
            = Throw (BadRequestError "Invalid search criteria.")) as Hthrow.
    { unfold Job.checkCriteria.
      by rewrite (checkKeys_unrecognized _ _ key Hkey Hnot). }
    split; [by eexists|]. unfold Job.filter. rewrite Hthrow. by eexists.
Qed.

Lemma C5_witness :
  is_bad_request (Job.checkCriteria {[ "coffeeMachines" := JNum 2 ]}) /\
  is_bad_request
    (Company.checkCriteria (fun _ _ => None) {[ "coffeeMachines" := JNum 2 ]}).
Proof.
  pose proof (C5_unrecognized_key_rejected (fun _ _ => None) unit (fun _ _ => [])
                {[ "coffeeMachines" := JNum 2 ]} "coffeeMachines") as H.
  destruct H as [Hcompany Hjob].
  - exists (JNum 2). by_evaluation.
  - split.
    + apply Hjob. absent_key.
    + apply Hcompany. absent_key.
Defined.

(** The earlier revision of the job model runs the same loop. *)
Lemma JobDraft_unrecognized_key_rejected (params : gmap string value) (key : string) :
  is_Some (params !! key) -> key ∉ JobDraft.criteria ->
  JobDraft.filter params = (Throw (BadRequestError "Invalid search criteria."), []).
Proof.
  intros Hkey Hnot. unfold JobDraft.filter, JobDraft.checkCriteria.
  by rewrite (checkKeys_unrecognized _ _ key Hkey Hnot).
Qed.

(** ** The equity flag *)

(** C2. Validation of a job criteria map accepts [hasEquity] when its raw
    value is the literal "true" or the literal "false" (the keys being
    recognized), and fails with a BadRequestError for every other truthy
    value. *)
Theorem C2_hasEquity_literal (params : gmap string value) :
  (recognized Job.criteria params ->
   Js.get params "hasEquity" = JStr "true" \/ Js.get params "hasEquity" = JStr "false" ->
   Job.checkCriteria params = Ok tt) /\
  (Js.truthy (Js.get params "hasEquity") = true ->
   Js.get params "hasEquity" <> JStr "true" ->
   Js.get params "hasEquity" <> JStr "false" ->
   is_bad_request (Job.checkCriteria params)).
Proof.
  split.
  - intros Hrec Hlit. unfold Job.checkCriteria.
    rewrite (checkKeys_recognized _ _ Hrec). simpl.
    destruct Hlit as [-> | ->]; reflexivity.
  - intros Htruthy Htrue Hfalse. unfold Job.checkCriteria.
    destruct (checkKeys_cases Job.criteria (Js.keys params)) as [-> | ->];
      [|by eexists].
    simpl. rewrite Htruthy, !strict_eq_string.
    rewrite !bool_decide_eq_false_2 by assumption. by eexists.
Qed.

Lemma C2_witness :
  Job.checkCriteria {[ "hasEquity" := JStr "true" ]} = Ok tt /\
  Job.checkCriteria {[ "hasEquity" := JStr "false" ]} = Ok tt /\
  is_bad_request (Job.checkCriteria {[ "hasEquity" := JStr "ofcourseduh" ]}).
Proof.
  split; [|split].
  - apply (C2_hasEquity_literal {[ "hasEquity" := JStr "true" ]}).
    + apply recognized_by_keys. by_evaluation.
    + left. by_evaluation.
  - apply (C2_hasEquity_literal {[ "hasEquity" := JStr "false" ]}).
    + apply recognized_by_keys. by_evaluation.
    + right. by_evaluation.
  - apply (C2_hasEquity_literal {[ "hasEquity" := JStr "ofcourseduh" ]}).
    + by_evaluation.
    + vm_compute. discriminate.
    + vm_compute. discriminate.
Defined.

(** The earlier revision joins the two tests with [||]: every truthy value
    of [hasEquity] is rejected, the literals "true" and "false" included. *)
Lemma JobDraft_rejects_every_truthy_flag (params : gmap string value) :
  Js.truthy (Js.get params "hasEquity") = true ->
  is_bad_request (JobDraft.checkCriteria params).
Proof.
  intros Htruthy. unfold JobDraft.checkCriteria.
  destruct (checkKeys_cases JobDraft.criteria (Js.keys params)) as [-> | ->];
    [|by eexists].
  simpl. rewrite Htruthy, !strict_eq_string.
  destruct (decide (Js.get params "hasEquity" = JStr "true")) as [Heq|Hne].
  - rewrite Heq. by eexists.
  - rewrite (bool_decide_eq_false_2 _ Hne). by eexists.
Qed.

Example JobDraft_rejects_true :
  JobDraft.checkCriteria {[ "hasEquity" := JStr "true" ]}
  = Throw (BadRequestError "Invalid value for has equity").
Proof. by_evaluation. Qed.

(** ** The search clauses *)

Lemma get_delete_eq (params : gmap string value) (key : string) :
  Js.get (delete key params) key = JUndefined.
Proof. unfold Js.get. by rewrite lookup_delete_eq. Qed.

Lemma get_delete_ne (params : gmap string value) (key key' : string) :
  key <> key' -> Js.get (delete key params) key' = Js.get params key'.
Proof. intros Hne. unfold Js.get. by rewrite lookup_delete_ne. Qed.

Lemma get_insert_eq (params : gmap string value) (key : string) (v : value) :
  Js.get (<[key:=v]> params) key = v.
Proof. unfold Js.get. by rewrite lookup_insert_eq. Qed.

Lemma get_insert_ne (params : gmap string value) (key key' : string) (v : value) :
  key <> key' -> Js.get (<[key:=v]> params) key' = Js.get params key'.
Proof. intros Hne. unfold Js.get. by rewrite lookup_insert_ne. Qed.

(** The arrays of the builders are the clauses of the precedence tables. *)
Lemma Job_searchArrays_clause (params : gmap string value) :
  Job.searchArrays params = clause_of (jobPrecedence params).
Proof.
  unfold Job.searchArrays, clause_of, emitted, jobPrecedence. simpl.
  destruct (Js.truthy (Js.get params "title")),
           (Js.truthy (Js.get params "minSalary")),
           (Js.strict_eq (Js.get params "hasEquity") (JStr "true")); reflexivity.
Qed.

Lemma Company_searchArrays_clause (params : gmap string value) :
  Company.searchArrays params = clause_of (companyPrecedence params).
Proof.
  unfold Company.searchArrays, clause_of, emitted, companyPrecedence. simpl.
  destruct (Js.truthy (Js.get params "minEmployees")),
           (Js.truthy (Js.get params "maxEmployees")),
           (Js.truthy (Js.get params "name")); reflexivity.
Qed.

Lemma clause_of_length (table : list criterion) :
  length (clause_of table).1 = length (clause_of table).2.
Proof.
  unfold clause_of, numbered. simpl. by rewrite length_imap, !length_fmap.
Qed.

Lemma clause_of_lookup (table : list criterion) (i : nat) (c : criterion) :
  emitted table !! i = Some c ->
  (clause_of table).1 !! i = Some (stem c +:+ "$" +:+ Js.showNat (S i)) /\
  (clause_of table).2 !! i = Some (bound c).
Proof.
  intros Hi. unfold clause_of, numbered. simpl.
  rewrite list_lookup_imap, !list_lookup_fmap, Hi. done.
Qed.

Lemma emitted_sublist (table : list criterion) : sublist (emitted table) table.
Proof.
  unfold emitted. induction table as [|c table IH]; simpl; [constructor|].
  destruct (active c); by constructor.
Qed.

(** C3 as the example states it: the bind values of the job example are not
    the salary followed by the title pattern. *)
Lemma C3_counterexample :
  values (Job.createSearchSqlStatement job_example) <> [JNum 2; JStr "%j2%"].
Proof. vm_compute. discriminate. Qed.

(** C3, amended. For the job criteria [{minSalary: 2, title: "j2"}] the
    builder produces two fragments joined by " AND ", the title fragment
    with placeholder 1 and the salary fragment with placeholder 2, and the
    bind values ["%j2%", 2] in that order: the order of the declared
    precedence and of the placeholder numbers. *)
Theorem C3_job_example_title_first :
  Job.searchArrays job_example
    = (["title ILIKE $1"; "salary >= $2"], [JStr "%j2%"; JNum 2]) /\
  Job.createSearchSqlStatement job_example
    = {| statement := "title ILIKE $1 AND salary >= $2";
         values := [JStr "%j2%"; JNum 2] |}.
Proof. split; by_evaluation. Qed.

(** C7 as stated fails on the bind value: with [hasEquity] "true" the
    value bound is not the number 0. *)
Lemma C7_counterexample :
  values (Job.createSearchSqlStatement {[ "hasEquity" := JStr "true" ]}) <> [JNum 0].
Proof. vm_compute. discriminate. Qed.

(** C7, amended. In the complete revision of the job model, a raw
    [hasEquity] of "true" appends the fragment [equity > $n], n being the
    next placeholder, and binds the text "0", as the source pushes it; a
    raw "false" adds no fragment and no value: the arrays are those of the
    map without the flag. *)
Theorem C7_equity_flag (params : gmap string value) :
  let rest := Job.searchArrays (delete "hasEquity" params) in
  length rest.1 = length rest.2 /\
  (Js.get params "hasEquity" = JStr "true" ->
   Job.searchArrays params
   = ((rest.1 ++ ["equity > $" +:+ Js.showNat (length rest.1 + 1)])%list,
      (rest.2 ++ [JStr "0"])%list)) /\
  (Js.get params "hasEquity" = JStr "false" ->
   Job.searchArrays params = rest /\
   Job.createSearchSqlStatement params
   = Job.createSearchSqlStatement (delete "hasEquity" params)).
Proof.
  simpl. split.
  { rewrite Job_searchArrays_clause. apply clause_of_length. }
  assert (forall v, Js.get params "hasEquity" = v ->
            Job.searchArrays params
            = let rest := Job.searchArrays (delete "hasEquity" params) in
              if Js.strict_eq v (JStr "true")
              then ((rest.1 ++ ["equity > $" +:+ Js.showNat (length rest.1 + 1)])%list,
                    (rest.2 ++ [JStr "0"])%list)
              else rest) as Hgen.
  { intros v Hv. unfold Job.searchArrays.
    rewrite get_delete_eq, !get_delete_ne by discriminate. rewrite Hv.
    destruct (Js.truthy (Js.get params "title")),
             (Js.truthy (Js.get params "minSalary")),
             (Js.strict_eq v (JStr "true")); reflexivity. }
  split; intros Hraw.
  - by rewrite (Hgen _ Hraw).
  - assert (Job.searchArrays params = Job.searchArrays (delete "hasEquity" params))
      as Heq by (by rewrite (Hgen _ Hraw)).
    split; [exact Heq|]. unfold Job.createSearchSqlStatement. by rewrite Heq.
Qed.

Lemma C7_witness :
  Job.createSearchSqlStatement {[ "title" := JStr "j"; "hasEquity" := JStr "true" ]}
    = {| statement := "title ILIKE $1 AND equity > $2";
         values := [JStr "%j%"; JStr "0"] |} /\
  Job.createSearchSqlStatement {[ "title" := JStr "j"; "hasEquity" := JStr "false" ]}
    = {| statement := "title ILIKE $1"; values := [JStr "%j%"] |}.
Proof.
  split.
  - pose proof (C7_equity_flag {[ "title" := JStr "j"; "hasEquity" := JStr "true" ]})
      as (_ & Htrue & _).
    unfold Job.createSearchSqlStatement. rewrite Htrue by by_evaluation.
    by_evaluation.
  - pose proof (C7_equity_flag {[ "title" := JStr "j"; "hasEquity" := JStr "false" ]})
      as (_ & _ & Hfalse).
    destruct Hfalse as [_ ->]; by_evaluation.
Defined.

(** The earlier revision writes the equity fragment with [>=]. *)
Example JobDraft_equity_fragment :
  JobDraft.createSearchSqlStatement {[ "hasEquity" := JStr "true" ]}
  = {| statement := "equity >= $1"; values := [JStr "0"] |}.
Proof. by_evaluation. Qed.

(** C8. The clause of either filter builder agrees with the declared
    precedence of its entity (jobs: title, minSalary, hasEquity; companies:
    minEmployees, maxEmployees, name): as many bind values as placeholders,
    placeholders numbered from 1 without a gap in the order the fragments
    are emitted, and value [i] next to placeholder [$i].  It holds for
    every criteria map, hence for those that pass validation. *)
Theorem C8_placeholders_aligned (params : gmap string value) :
  aligned (jobPrecedence params) (Job.createSearchSqlStatement params) /\
  aligned (companyPrecedence params) (Company.createSearchSqlStatement params).
Proof.
  split.
  - unfold aligned, Job.createSearchSqlStatement.
    rewrite Job_searchArrays_clause. unfold clause_of. cbn [statement values].
    split; [apply emitted_sublist|].
    split; [reflexivity|]. split; [reflexivity|].
    split; [apply (clause_of_length (jobPrecedence params))|].
    split; [|intros i cr Hi; apply (clause_of_lookup _ _ _ Hi)].
    unfold emitted, jobPrecedence. simpl.
    destruct (Js.truthy (Js.get params "title")),
             (Js.truthy (Js.get params "minSalary")),
             (Js.strict_eq (Js.get params "hasEquity") (JStr "true")); reflexivity.
  - unfold aligned, Company.createSearchSqlStatement.
    rewrite Company_searchArrays_clause. unfold clause_of. cbn [statement values].
    split; [apply emitted_sublist|].
    split; [reflexivity|]. split; [reflexivity|].
    split; [apply (clause_of_length (companyPrecedence params))|].
    split; [|intros i cr Hi; apply (clause_of_lookup _ _ _ Hi)].
    unfold emitted, companyPrecedence. simpl.
    destruct (Js.truthy (Js.get params "minEmployees")),
             (Js.truthy (Js.get params "maxEmployees")),
             (Js.truthy (Js.get params "name")); reflexivity.
Qed.

(** The clause of the three company criteria together. *)
Example Company_three_criteria :
  Company.createSearchSqlStatement
    {[ "name" := JStr "net"; "minEmployees" := JStr "5"; "maxEmployees" := JNum 10 ]}
  = {| statement := "num_employees >= $1 AND num_employees <= $2 AND name ILIKE $3";
       values := [JNum 5; JNum 10; JStr "%net%"] |}.
Proof. by_evaluation. Qed.

(** ** The bounds of the company filter *)

(** C4. The rule asks that validation fail whenever the lower bound
    exceeds the upper one and succeed otherwise.  [Company.checkCriteria]
    misses it where the bounds arrive as text, which it compares character
    by character before any conversion, and where a bound is 0, which its
    truthiness guard takes for an absent bound: minEmployees "10" with
    maxEmployees "9" passes (and the builder then binds 10 and 9),
    minEmployees "9" with maxEmployees "10" is rejected, and minEmployees 5
    with maxEmployees 0 passes. *)
Theorem C4_bounds_check_misses (string_vs_num : string -> Z -> option comparison) :
  Company.checkCriteria string_vs_num
    {[ "minEmployees" := JStr "10"; "maxEmployees" := JStr "9" ]} = Ok tt /\
  values (Company.createSearchSqlStatement
            {[ "minEmployees" := JStr "10"; "maxEmployees" := JStr "9" ]})
  = [JNum 10; JNum 9] /\
  Company.checkCriteria string_vs_num
    {[ "minEmployees" := JStr "9"; "maxEmployees" := JStr "10" ]}
  = Throw (BadRequestError "Max employees must be greater than min employees") /\
  Company.checkCriteria string_vs_num
    {[ "minEmployees" := JNum 5; "maxEmployees" := JNum 0 ]} = Ok tt.
Proof. repeat split; by_evaluation. Qed.

(** The rule does not hold of every map with both bounds: with a lower
    bound of 5 and an upper bound of 0 the comparison is not made. *)
Lemma Company_bounds_not_always_compared : ~ bounds_always_compared.
Proof.
  intros Hclaim.
  destruct (Hclaim (fun _ _ => None)
              {[ "minEmployees" := JNum 5; "maxEmployees" := JNum 0 ]} 5%Z 0%Z)
    as [Hfail _].
  - apply recognized_by_keys. by_evaluation.
  - exists (JNum 5). by_evaluation.
  - exists (JNum 0). by_evaluation.
  - by_evaluation.
  - by_evaluation.
  - destruct Hfail as [message Hthrow]; [lia|].
    vm_compute in Hthrow. discriminate.
Qed.

(** Where the comparison does what the rule asks: the keys recognized and
    both bounds present as numbers other than 0. *)
Lemma Company_nonzero_bounds_compared
    (string_vs_num : string -> Z -> option comparison)
    (params : gmap string value) (lo hi : Z) :
  recognized Company.criteria params ->
  params !! "minEmployees" = Some (JNum lo) ->
  params !! "maxEmployees" = Some (JNum hi) ->
  lo <> 0%Z -> hi <> 0%Z ->
  ((hi < lo)%Z ->
   Company.checkCriteria string_vs_num params
   = Throw (BadRequestError "Max employees must be greater than min employees")) /\
  ((lo <= hi)%Z -> Company.checkCriteria string_vs_num params = Ok tt).
Proof.
  intros Hrec Hlo Hhi Hlo0 Hhi0. unfold Company.checkCriteria.
  rewrite (checkKeys_recognized _ _ Hrec).
  rewrite (get_lookup _ _ _ Hlo), (get_lookup _ _ _ Hhi). simpl.
  destruct (Z.eqb_spec lo 0) as [|_]; [contradiction|].
  destruct (Z.eqb_spec hi 0) as [|_]; [contradiction|]. simpl.
  split; intros Hcmp.
  - by rewrite (proj2 (Z.ltb_lt hi lo) Hcmp).
  - by rewrite (proj2 (Z.ltb_ge hi lo) Hcmp).
Qed.

Example Company_bounds_50_10 :
  Company.checkCriteria (fun _ _ => None)
    {[ "minEmployees" := JNum 50; "maxEmployees" := JNum 10 ]}
  = Throw (BadRequestError "Max employees must be greater than min employees").
Proof.
  apply (Company_nonzero_bounds_compared (fun _ _ => None)
           {[ "minEmployees" := JNum 50; "maxEmployees" := JNum 10 ]} 50%Z 10%Z).
  - apply recognized_by_keys. by_evaluation.
  - by_evaluation.
  - by_evaluation.
  - lia.
  - lia.
  - lia.
Qed.

(** Bounds given as text are compared as text, character by character. *)
Example Company_text_bounds (string_vs_num : string -> Z -> option comparison) :
  Company.checkCriteria string_vs_num
    {[ "minEmployees" := JStr "9"; "maxEmployees" := JStr "10" ]}
  = Throw (BadRequestError "Max employees must be greater than min employees") /\
  Company.checkCriteria string_vs_num
    {[ "minEmployees" := JStr "10"; "maxEmployees" := JStr "9" ]}
  = Ok tt.
Proof. split; by_evaluation. Qed.

(** ** Falsy values in the company filter *)

Lemma checkKeys_insert (criteria : list string) (params : gmap string value)
    (key : string) (v : value) :
  key ∈ criteria ->
  checkKeys criteria (Js.keys (<[key:=v]> params))
  = checkKeys criteria (Js.keys (delete key params)).
Proof.
  intros Hkey. rewrite <- (insert_delete_eq params).
  rewrite (checkKeys_Permutation _ _ (key :: Js.keys (delete key params))).
  - simpl. by rewrite indexOf_nonneg.
  - unfold Js.keys. rewrite map_to_list_insert by apply lookup_delete_eq.
    reflexivity.
Qed.

Lemma all_falsy_get (params : gmap string value) (key : string) :
  all_falsy params -> Js.truthy (Js.get params key) = false.
Proof.
  intros Hall. unfold Js.get. destruct (params !! key) as [v|] eqn:Hv; simpl.
  - by apply (Hall key).
  - reflexivity.
Qed.

(** C10. In the company filter a recognized key with a falsy value (the
    number 0, the empty text) counts for nothing: validation and the built
    arrays are those of the map without the key.  With minEmployees 0 the
    bounds are not compared, so [{minEmployees: 0, maxEmployees: m}] passes
    validation for every m.  A map of recognized keys whose values are all
    falsy passes validation and yields the empty statement with no value,
    and [Company.filter] still sends the query, with nothing after WHERE. *)
Theorem C10_falsy_values_ignored
    (string_vs_num : string -> Z -> option comparison)
    (row : Type) (db_query : string -> list value -> list row) :
  (forall (params : gmap string value) (key : string) (v : value),
     key ∈ Company.criteria -> Js.truthy v = false ->
     Company.checkCriteria string_vs_num (<[key:=v]> params)
     = Company.checkCriteria string_vs_num (delete key params) /\
     Company.searchArrays (<[key:=v]> params)
     = Company.searchArrays (delete key params)) /\
  (forall m : value,
     Company.checkCriteria string_vs_num
       {[ "minEmployees" := JNum 0; "maxEmployees" := m ]} = Ok tt) /\
  (forall params : gmap string value,
     recognized Company.criteria params -> all_falsy params ->
     Company.checkCriteria string_vs_num params = Ok tt /\
     Company.createSearchSqlStatement params
     = {| statement := EmptyString; values := [] |} /\
     Company.filter string_vs_num db_query params
     = (Ok (db_query (Company.querySql EmptyString) []),
        [{| text := Company.querySql EmptyString; binds := [] |}]) /\
     exists before,
       Company.querySql EmptyString
       = before +:+ "WHERE " +:+ nl +:+ "                      ").
Proof.
  split; [|split].
  - intros params key v Hkey Hfalsy.
    assert (Js.truthy JUndefined = false) as Hundef by reflexivity.
    unfold Company.checkCriteria, Company.searchArrays.
    rewrite (checkKeys_insert _ _ _ _ Hkey).
    unfold Company.criteria in Hkey.
    apply elem_of_cons in Hkey as [->|Hkey];
      [|apply elem_of_cons in Hkey as [->|Hkey];
        [|apply elem_of_cons in Hkey as [->|Hkey]; [|inversion Hkey]]];
      rewrite ?get_insert_eq, ?get_delete_eq,
        ?get_insert_ne, ?get_delete_ne by discriminate;
      rewrite ?Hfalsy, ?Hundef, ?andb_false_r; simpl; done.
  - intros m. by_evaluation.
  - intros params Hrec Hall.
    assert (Company.checkCriteria string_vs_num params = Ok tt) as Hcheck.
    { unfold Company.checkCriteria. rewrite (checkKeys_recognized _ _ Hrec).
      simpl. by rewrite (all_falsy_get _ "minEmployees" Hall). }
    assert (Company.createSearchSqlStatement params
            = {| statement := EmptyString; values := [] |}) as Hclause.
    { unfold Company.createSearchSqlStatement, Company.searchArrays.
      by rewrite !all_falsy_get. }
    split; [exact Hcheck|]. split; [exact Hclause|]. split.
    + unfold Company.filter. by rewrite Hcheck, Hclause.
    + exists (String.substring 0
                (String.length (Company.querySql EmptyString) - 29)
                (Company.querySql EmptyString)).
      by_evaluation.
Qed.

Lemma C10_witness :
  Company.checkCriteria (fun _ _ => None)
    {[ "minEmployees" := JNum 0; "maxEmployees" := JNum (-7) ]} = Ok tt /\
  Company.createSearchSqlStatement {[ "name" := JStr EmptyString; "minEmployees" := JNum 0 ]}
  = {| statement := EmptyString; values := [] |}.
Proof.
  pose proof (C10_falsy_values_ignored (fun _ _ => None) unit (fun _ _ => []))
    as (_ & Hzero & Hall).
  split; [apply Hzero|].
  apply (Hall {[ "name" := JStr EmptyString; "minEmployees" := JNum 0 ]}).
  - apply recognized_by_keys. by_evaluation.
  - intros key v Hv.
    destruct (decide (key = "name")) as [->|Hname].
    { vm_compute in Hv. by inversion Hv. }
    destruct (decide (key = "minEmployees")) as [->|Hmin].
    { vm_compute in Hv. by inversion Hv. }
    rewrite lookup_insert_ne, lookup_singleton_ne in Hv by done. discriminate.
Defined.

(** ** The application update *)

Lemma filter_all {A : Type} (l : list A) : List.filter (fun _ => true) l = l.
Proof. induction l as [|x l IH]; simpl; congruence. Qed.

Lemma select_rows_found (username : string) (jobId : Z)
    (table : list User.application) (r : User.application) :
  r ∈ table -> User.username r = username -> User.job_id r = jobId ->
  head (User.select_rows
          [(User.col_username, JStr username); (User.col_job_id, JNum jobId)] table)
  <> None.
Proof.
  intros Hin Hu Hj. unfold User.select_rows.
  induction table as [|x table IH]; [inversion Hin|].
  cbn [List.filter].
  destruct (User.satisfies
              [(User.col_username, JStr username); (User.col_job_id, JNum jobId)] x)
    eqn:Hx; [done|].
  apply elem_of_cons in Hin as [->|Hin]; [|by apply IH].
  unfold User.satisfies in Hx. simpl in Hx. rewrite Hu, Hj in Hx.
  rewrite !bool_decide_eq_true_2 in Hx by reflexivity. discriminate.
Qed.

(** C9. When an application of the user to the job exists, the update that
    [User.updateJobApplication] runs has no restriction: afterwards every
    row of the table carries the new state, whatever its user and job, and
    the record returned is the first of the updated rows. *)
Theorem C9_update_touches_every_row (username : string) (jobId : Z)
    (newState : string) (table : list User.application) :
  (exists r, r ∈ table /\ User.username r = username /\ User.job_id r = jobId) ->
  User.updateJobApplication username jobId newState table
  = (Ok (User.set_state newState <$> head table),
     User.set_state newState <$> table) /\
  forall r', r' ∈ (User.updateJobApplication username jobId newState table).2 ->
             User.current_state r' = newState.
Proof.
  intros (r & Hin & Hu & Hj).
  assert (User.updateJobApplication username jobId newState table
          = (Ok (User.set_state newState <$> head table),
             User.set_state newState <$> table)) as Hrun.
  { unfold User.updateJobApplication.
    pose proof (select_rows_found _ _ _ _ Hin Hu Hj) as Hfound.
    destruct (head (User.select_rows _ table)); [|contradiction].
    unfold User.update_rows. simpl. rewrite filter_all.
    f_equal. by destruct table. }
  split; [exact Hrun|]. rewrite Hrun. simpl. intros r' Hr'.
  apply list_elem_of_fmap in Hr' as (r0 & -> & _). reflexivity.
Qed.

Lemma C9_witness :
  User.updateJobApplication "u1" 2 "accepted"
    [ {| User.username := "u2"; User.job_id := 7; User.current_state := "applied" |};
      {| User.username := "u1"; User.job_id := 2; User.current_state := "applied" |} ]
  = (Ok (Some {| User.username := "u2"; User.job_id := 7;
                 User.current_state := "accepted" |}),
     [ {| User.username := "u2"; User.job_id := 7; User.current_state := "accepted" |};
       {| User.username := "u1"; User.job_id := 2; User.current_state := "accepted" |} ]).
Proof.
  apply (C9_update_touches_every_row "u1" 2 "accepted").
  exists {| User.username := "u1"; User.job_id := 2; User.current_state := "applied" |}.
  split; [|split; reflexivity].
  right. left.
Defined.

(** Without a matching application nothing is written. *)
Lemma updateJobApplication_not_found (username : string) (jobId : Z)
    (newState : string) (table : list User.application) :
  (forall r, r ∈ table -> ~ (User.username r = username /\ User.job_id r = jobId)) ->
  User.updateJobApplication username jobId newState table
  = (Throw (NotFoundError "Application not found"), table).
Proof.
  intros Hnone. unfold User.updateJobApplication.
  destruct (head (User.select_rows _ table)) as [r|] eqn:Hhead; [|reflexivity].
  exfalso. apply head_Some_elem_of in Hhead.
  unfold User.select_rows in Hhead. apply list_elem_of_In in Hhead.
  apply List.filter_In in Hhead as [Hin Hsat]. apply list_elem_of_In in Hin.
  apply (Hnone r Hin). unfold User.satisfies in Hsat. simpl in Hsat.
  apply andb_prop in Hsat as [H1 H2]. apply andb_prop in H2 as [H2 _].
  apply bool_decide_eq_true in H1, H2. split; congruence.
Qed.

(** ** The partial-update helper *)

(** What one pass adds to the two accumulators. *)
Lemma collect_appends (jsToSql : gmap string string) (entries : list (string * value))
    (idx : nat) (cols : list string) (vals : list value) :
  Sql.collect jsToSql entries idx cols vals
  = ((cols ++ imap (fun i kv => Sql.fragment (Sql.column jsToSql kv.1) (idx + i)) entries)%list,
     (vals ++ entries.*2)%list).
Proof.
  revert idx cols vals.
  induction entries as [|[key v] rest IH]; intros idx cols vals; simpl.
  - by rewrite !app_nil_r.
  - rewrite IH. unfold Js.push. rewrite <- !app_assoc. simpl.
    rewrite Nat.add_0_r. do 3 f_equal.
    apply imap_ext. intros i kv _. simpl. f_equal. lia.
Qed.

(** C1. For a payload of n >= 1 entries and any field map, the
    partial-update builder returns n fragments joined by ", " and n values.
    Fragment i (counted from 1, in the iteration order of the payload) is
    the quoted column of entry i, an equals sign and the placeholder [$i];
    the column is the entry of the field map for the key, or the key itself
    when the map has none; value i is the value of entry i. *)
Theorem C1_partial_update_fragments (dataToUpdate : list (string * value))
    (jsToSql : gmap string string) :
  dataToUpdate <> [] ->
  exists cols : list string,
    Sql.sqlForPartialUpdate dataToUpdate jsToSql
    = Ok {| Sql.setCols := Js.join ", " cols; Sql.values := dataToUpdate.*2 |} /\
    length cols = length dataToUpdate /\
    length dataToUpdate.*2 = length dataToUpdate /\
    forall (i : nat) (key : string) (v : value),
      dataToUpdate !! i = Some (key, v) ->
      cols !! i = Some (Js.dquote +:+ default key (jsToSql !! key) +:+ Js.dquote
                        +:+ "=$" +:+ Js.showNat (S i)) /\
      dataToUpdate.*2 !! i = Some v.
Proof.
  intros Hnonempty.
  exists (imap (fun i kv => Sql.fragment (Sql.column jsToSql kv.1) (1 + i)) dataToUpdate).
  split; [|split; [|split]].
  - unfold Sql.sqlForPartialUpdate.
    destruct dataToUpdate as [|entry rest]; [contradiction|].
    by rewrite collect_appends.
  - apply length_imap.
  - apply length_fmap.
  - intros i key v Hi. rewrite list_lookup_imap, list_lookup_fmap, Hi. done.
Qed.

Lemma C1_witness :
  exists cols : list string,
    Sql.sqlForPartialUpdate [("firstName", JStr "Aliya"); ("age", JNum 32)]
      {[ "firstName" := "first_name"; "age" := "age" ]}
    = Ok {| Sql.setCols := Js.join ", " cols;
            Sql.values := [JStr "Aliya"; JNum 32] |} /\
    cols !! 0 = Some (Js.dquote +:+ "first_name" +:+ Js.dquote +:+ "=$1") /\
    cols !! 1 = Some (Js.dquote +:+ "age" +:+ Js.dquote +:+ "=$2").
Proof.
  destruct (C1_partial_update_fragments
              [("firstName", JStr "Aliya"); ("age", JNum 32)]
              {[ "firstName" := "first_name"; "age" := "age" ]})
    as (cols & Hrun & _ & _ & Hat); [discriminate|].
  exists cols. split; [exact Hrun|]. split.
  - apply (Hat 0 "firstName" (JStr "Aliya")). reflexivity.
  - apply (Hat 1 "age" (JNum 32)). reflexivity.
Defined.

(** The example of the test of the helper. *)
Example sqlForPartialUpdate_example :
  Sql.sqlForPartialUpdate [("firstName", JStr "Aliya"); ("age", JNum 32)]
    {[ "firstName" := "first_name"; "age" := "age" ]}
  = Ok {| Sql.setCols := Js.dquote +:+ "first_name" +:+ Js.dquote +:+ "=$1, "
                         +:+ Js.dquote +:+ "age" +:+ Js.dquote +:+ "=$2";
          Sql.values := [JStr "Aliya"; JNum 32] |}.
Proof. by_evaluation. Qed.

(** The field map of [Company.update] leaves [name] as it is. *)
Example sqlForPartialUpdate_unmapped_key :
  Sql.sqlForPartialUpdate [("name", JStr "New"); ("numEmployees", JNum 10)]
    {[ "numEmployees" := "num_employees"; "logoUrl" := "logo_url" ]}
  = Ok {| Sql.setCols := Js.dquote +:+ "name" +:+ Js.dquote +:+ "=$1, "
                         +:+ Js.dquote +:+ "num_employees" +:+ Js.dquote +:+ "=$2";
          Sql.values := [JStr "New"; JNum 10] |}.
Proof. by_evaluation. Qed.

(** C6. With an empty payload the partial-update builder fails with a
    BadRequestError, whatever the field map; it never returns a clause. *)
Theorem C6_empty_payload_rejected (jsToSql : gmap string string) :
  is_bad_request (Sql.sqlForPartialUpdate [] jsToSql) /\
  forall clause, Sql.sqlForPartialUpdate [] jsToSql <> Ok clause.
Proof.
  split; [by eexists|]. intros clause. discriminate.
Qed.

(** ** Numbers through [parseInt] *)

Ltac eval_digit_codes :=
  repeat match goal with
  | |- context [Z.of_nat (nat_of_ascii ?c)] =>
      let v := eval vm_compute in (Z.of_nat (nat_of_ascii c)) in
      change (Z.of_nat (nat_of_ascii c)) with v
  end.

Lemma digits_acc (d : Decimal.uint) (acc : positive) :
  Js.digits 10 (NilEmpty.string_of_uint d) (Some (Zpos acc))
  = Some (Zpos (Pos.of_uint_acc d acc)).
Proof.
  revert acc. induction d; intros acc; simpl; [reflexivity|..];
    rewrite <- IHd; do 2 f_equal; eval_digit_codes; lia.
Qed.

Lemma digits_zero (d : Decimal.uint) :
  Js.digits 10 (NilEmpty.string_of_uint d) (Some 0%Z)
  = Some (Z.of_N (Pos.of_uint d)).
Proof.
  induction d; simpl; [reflexivity|exact IHd|..]; apply digits_acc.
Qed.

Lemma digits_fresh (d : Decimal.uint) :
  d <> Decimal.Nil ->
  Js.digits 10 (NilEmpty.string_of_uint d) None = Some (Z.of_N (Pos.of_uint d)).
Proof.
  intros Hd. destruct d; [contradiction|..]; simpl;
    first [apply digits_zero | apply digits_acc].
Qed.

Lemma skip_spaces_uint (d : Decimal.uint) :
  Js.skip_spaces (NilEmpty.string_of_uint d) = NilEmpty.string_of_uint d.
Proof. destruct d; reflexivity. Qed.

Lemma strip_sign_uint (d : Decimal.uint) :
  Js.strip_sign (NilEmpty.string_of_uint d) = (1%Z, NilEmpty.string_of_uint d).
Proof. destruct d; reflexivity. Qed.

Lemma strip_radix_uint (d : Decimal.uint) :
  Js.strip_radix (NilEmpty.string_of_uint d) = (10%Z, NilEmpty.string_of_uint d).
Proof. destruct d as [|d|d|d|d|d|d|d|d|d|d]; try reflexivity; destruct d; reflexivity. Qed.

(** In the model a number printed and read back is the same number; the
    runtime agrees on the safe integers. *)
Lemma parseInt_number (z : Z) : Js.parseInt (JNum z) = JNum z.
Proof.
  unfold Js.parseInt, Js.toString, Js.showZ.
  destruct z as [|p|p]; [reflexivity| |]; unfold Z.to_int, NilEmpty.string_of_int.
  - rewrite skip_spaces_uint, strip_sign_uint, strip_radix_uint.
    rewrite digits_fresh by apply DecimalPos.Unsigned.to_uint_nonnil.
    rewrite DecimalPos.Unsigned.of_to. f_equal.
  - change (Js.skip_spaces (String "-" (NilEmpty.string_of_uint (Pos.to_uint p))))
      with (String "-" (NilEmpty.string_of_uint (Pos.to_uint p))).
    change (Js.strip_sign (String "-" (NilEmpty.string_of_uint (Pos.to_uint p))))
      with ((-1)%Z, NilEmpty.string_of_uint (Pos.to_uint p)).
    cbv iota beta. rewrite strip_radix_uint.
    rewrite digits_fresh by apply DecimalPos.Unsigned.to_uint_nonnil.
    rewrite DecimalPos.Unsigned.of_to. f_equal.
Qed.

(** ** Validation, in full *)

Lemma checkKeys_ok_iff (criteria : list string) (params : gmap string value) :
  checkKeys criteria (Js.keys params) = Ok tt <-> recognized criteria params.
Proof.
  split; [|apply checkKeys_recognized].
  intros Hok key Hkey.
  destruct (decide (key ∈ criteria)) as [Hin|Hnot]; [exact Hin|].
  rewrite (checkKeys_unrecognized _ _ key Hkey Hnot) in Hok. discriminate.
Qed.

Lemma checkKeys_throws_iff (criteria : list string) (params : gmap string value) :
  checkKeys criteria (Js.keys params) = Throw (BadRequestError "Invalid search criteria.")
  <-> ~ recognized criteria params.
Proof.
  rewrite <- checkKeys_ok_iff.
  destruct (checkKeys_cases criteria (Js.keys params)) as [-> | ->];
    split; try discriminate; try done.
Qed.

(** X1. [Job.checkCriteria] returns exactly when every key is recognized
    and [hasEquity] is falsy (absent, empty, 0) or one of the literals
    "true" and "false"; in every other case it throws a BadRequestError,
    never another error. *)
Theorem X1_Job_checkCriteria_accepts_iff (params : gmap string value) :
  (Job.checkCriteria params = Ok tt <->
   recognized Job.criteria params /\
   (Js.truthy (Js.get params "hasEquity") = false \/
    Js.get params "hasEquity" = JStr "true" \/
    Js.get params "hasEquity" = JStr "false")) /\
  (Job.checkCriteria params = Ok tt \/ is_bad_request (Job.checkCriteria params)).
Proof.
  unfold Job.checkCriteria.
  destruct (checkKeys_cases Job.criteria (Js.keys params)) as [Hok|Hthrow].
  - pose proof (proj1 (checkKeys_ok_iff _ _) Hok) as Hrec.
    rewrite Hok. simpl. rewrite !strict_eq_string.
    destruct (Js.truthy (Js.get params "hasEquity")) eqn:Htruthy.
    + destruct (decide (Js.get params "hasEquity" = JStr "true")) as [Ht|Ht];
        [rewrite Ht; simpl; split; [split; auto|by left]|].
      destruct (decide (Js.get params "hasEquity" = JStr "false")) as [Hf|Hf];
        [rewrite Hf; simpl; split; [split; auto|by left]|].
      rewrite !bool_decide_eq_false_2 by assumption. simpl. split.
      * split; [discriminate|]. intros [_ [?|[?|?]]]; congruence.
      * right. by eexists.
    + split; [split; auto|by left].
  - rewrite Hthrow. simpl. split.
    + split; [discriminate|]. intros [Hrec _].
      by apply checkKeys_throws_iff in Hthrow.
    + right. by eexists.
Qed.

(** X2. [Company.checkCriteria] returns exactly when every key is
    recognized and it is not the case that both bounds are truthy with
    minEmployees > maxEmployees; in every other case it throws a
    BadRequestError. *)
Theorem X2_Company_checkCriteria_accepts_iff
    (string_vs_num : string -> Z -> option comparison)
    (params : gmap string value) :
  (Company.checkCriteria string_vs_num params = Ok tt <->
   recognized Company.criteria params /\
   Js.truthy (Js.get params "minEmployees")
   && Js.truthy (Js.get params "maxEmployees")
   && Js.gt string_vs_num (Js.get params "minEmployees") (Js.get params "maxEmployees")
   = false) /\
  (Company.checkCriteria string_vs_num params = Ok tt \/
   is_bad_request (Company.checkCriteria string_vs_num params)).
Proof.
  unfold Company.checkCriteria.
  destruct (checkKeys_cases Company.criteria (Js.keys params)) as [Hok|Hthrow].
  - pose proof (proj1 (checkKeys_ok_iff _ _) Hok) as Hrec.
    rewrite Hok. simpl.
    destruct (Js.truthy (Js.get params "minEmployees")),
             (Js.truthy (Js.get params "maxEmployees")); simpl;
      try (split; [split; auto|by left]).
    destruct (Js.gt string_vs_num _ _); simpl.
    + split; [split; [discriminate|intros [_ ?]; discriminate]|right; by eexists].
    + split; [split; auto|by left].
  - rewrite Hthrow. simpl. split.
    + split; [discriminate|]. intros [Hrec _].
      by apply checkKeys_throws_iff in Hthrow.
    + right. by eexists.
Qed.

(** ** The text of the statements *)

(** X3. Whatever the criteria map, the statement a builder returns is one
    of eight fixed texts: no part of a raw value ever enters the SQL text,
    the values travel only as bind values. *)
Theorem X3_statement_is_fixed_text (params : gmap string value) :
  statement (Job.createSearchSqlStatement params) ∈ jobStatements /\
  statement (Company.createSearchSqlStatement params) ∈ companyStatements.
Proof.
  split.
  - unfold Job.createSearchSqlStatement, Job.searchArrays.
    destruct (Js.truthy (Js.get params "title")),
             (Js.truthy (Js.get params "minSalary")),
             (Js.strict_eq (Js.get params "hasEquity") (JStr "true"));
      apply (bool_decide_unpack _); vm_compute; exact I.
  - unfold Company.createSearchSqlStatement, Company.searchArrays.
    destruct (Js.truthy (Js.get params "minEmployees")),
             (Js.truthy (Js.get params "maxEmployees")),
             (Js.truthy (Js.get params "name"));
      apply (bool_decide_unpack _); vm_compute; exact I.
Qed.

(** X4. In the job filter a recognized key with a falsy value (title or
    minSalary empty or 0, hasEquity empty) counts for nothing: validation
    and the built arrays are those of the map without the key. *)
Theorem X4_Job_falsy_values_ignored (params : gmap string value)
    (key : string) (v : value) :
  key ∈ Job.criteria -> Js.truthy v = false ->
  Job.checkCriteria (<[key:=v]> params) = Job.checkCriteria (delete key params) /\
  Job.searchArrays (<[key:=v]> params) = Job.searchArrays (delete key params).
Proof.
  intros Hkey Hfalsy.
  assert (Js.truthy JUndefined = false) as Hundef by reflexivity.
  assert (Js.strict_eq v (JStr "true") = false) as Hnot.
  { rewrite strict_eq_string. apply bool_decide_eq_false_2. by intros ->. }
  unfold Job.checkCriteria, Job.searchArrays.
  rewrite (checkKeys_insert _ _ _ _ Hkey).
  unfold Job.criteria in Hkey.
  apply elem_of_cons in Hkey as [->|Hkey];
    [|apply elem_of_cons in Hkey as [->|Hkey];
      [|apply elem_of_cons in Hkey as [->|Hkey]; [|inversion Hkey]]];
    rewrite ?get_insert_eq, ?get_delete_eq,
      ?get_insert_ne, ?get_delete_ne by discriminate;
    rewrite ?Hfalsy, ?Hundef, ?Hnot; simpl; done.
Qed.

Lemma X4_witness :
  Job.searchArrays {[ "minSalary" := JNum 0; "title" := JStr "j" ]}
  = Job.searchArrays (delete "minSalary" {[ "title" := JStr "j" ]}).
Proof.
  apply (X4_Job_falsy_values_ignored {[ "title" := JStr "j" ]} "minSalary" (JNum 0)).
  - apply (bool_decide_unpack _). vm_compute. exact I.
  - reflexivity.
Defined.

(** X5. A builder returns the empty statement exactly when it returns no
    bind value, and that is exactly when no criterion is active: for jobs
    title and minSalary falsy and hasEquity other than "true", for
    companies the three values falsy. *)
Theorem X5_empty_clause_iff (params : gmap string value) :
  let job := Job.createSearchSqlStatement params in
  let company := Company.createSearchSqlStatement params in
  (statement job = EmptyString <-> values job = []) /\
  (values job = [] <->
   Js.truthy (Js.get params "title") = false /\
   Js.truthy (Js.get params "minSalary") = false /\
   Js.strict_eq (Js.get params "hasEquity") (JStr "true") = false) /\
  (statement company = EmptyString <-> values company = []) /\
  (values company = [] <->
   Js.truthy (Js.get params "minEmployees") = false /\
   Js.truthy (Js.get params "maxEmployees") = false /\
   Js.truthy (Js.get params "name") = false).
Proof.
  unfold Job.createSearchSqlStatement, Job.searchArrays,
    Company.createSearchSqlStatement, Company.searchArrays.
  destruct (Js.truthy (Js.get params "title")),
           (Js.truthy (Js.get params "minSalary")),
           (Js.strict_eq (Js.get params "hasEquity") (JStr "true")),
           (Js.truthy (Js.get params "minEmployees")),
           (Js.truthy (Js.get params "maxEmployees")),
           (Js.truthy (Js.get params "name"));
    cbn; repeat split; intros; try discriminate; try reflexivity;
    repeat match goal with H : _ /\ _ |- _ => destruct H end; discriminate.
Qed.

(** ** What [filter] sends *)

Lemma placeholders_app (a b : string) :
  placeholders (a +:+ b) = placeholders a + placeholders b.
Proof. induction a as [|c a IH]; simpl; [reflexivity|]. rewrite IH. lia. Qed.

Lemma Company_querySql_placeholders (st : string) :
  placeholders (Company.querySql st) = placeholders st.
Proof.
  unfold Company.querySql. rewrite !placeholders_app.
  vm_compute (placeholders nl). vm_compute (placeholders Js.dquote). simpl. lia.
Qed.

Lemma Job_querySql_placeholders (st : string) :
  placeholders (Job.querySql st) = placeholders st.
Proof.
  unfold Job.querySql. rewrite !placeholders_app.
  vm_compute (placeholders nl). vm_compute (placeholders Js.dquote). simpl. lia.
Qed.

Lemma Job_statement_placeholders (params : gmap string value) :
  placeholders (statement (Job.createSearchSqlStatement params))
  = length (values (Job.createSearchSqlStatement params)).
Proof.
  unfold Job.createSearchSqlStatement, Job.searchArrays.
  destruct (Js.truthy (Js.get params "title")),
           (Js.truthy (Js.get params "minSalary")),
           (Js.strict_eq (Js.get params "hasEquity") (JStr "true")); reflexivity.
Qed.

Lemma Company_statement_placeholders (params : gmap string value) :
  placeholders (statement (Company.createSearchSqlStatement params))
  = length (values (Company.createSearchSqlStatement params)).
Proof.
  unfold Company.createSearchSqlStatement, Company.searchArrays.
  destruct (Js.truthy (Js.get params "minEmployees")),
           (Js.truthy (Js.get params "maxEmployees")),
           (Js.truthy (Js.get params "name")); reflexivity.
Qed.

(** X6. [Company.filter] and [Job.filter] send a query only when
    validation has passed, and every query they send holds, in its whole
    text, exactly as many placeholder marks as it has bind values. *)
Theorem X6_filter_sends_one_query
    (string_vs_num : string -> Z -> option comparison)
    (row : Type) (db_query : string -> list value -> list row)
    (params : gmap string value) :
  (forall q, q ∈ (Company.filter string_vs_num db_query params).2 ->
     Company.checkCriteria string_vs_num params = Ok tt /\
     placeholders (text q) = length (binds q)) /\
  (forall q, q ∈ (Job.filter db_query params).2 ->
     Job.checkCriteria params = Ok tt /\
     placeholders (text q) = length (binds q)).
Proof.
  split; intros q Hq.
  - unfold Company.filter in Hq.
    destruct (Company.checkCriteria string_vs_num params) as [[]|e];
      [|inversion Hq].
    apply list_elem_of_singleton in Hq. subst q. split; [reflexivity|].
    cbn [text binds snd].
    rewrite Company_querySql_placeholders. apply Company_statement_placeholders.
  - unfold Job.filter in Hq.
    destruct (Job.checkCriteria params) as [[]|e]; [|inversion Hq].
    apply list_elem_of_singleton in Hq. subst q. split; [reflexivity|].
    cbn [text binds snd].
    rewrite Job_querySql_placeholders. apply Job_statement_placeholders.
Qed.

(** ** The two revisions of the job model *)

(** X7. The earlier revision of [checkCriteria] accepts a map exactly when
    its keys are recognized and [hasEquity] is falsy, so whatever it
    accepts the complete revision accepts too; and the two revisions of
    [createSearchSqlStatement] return the same clause unless [hasEquity]
    is the literal "true". *)
Theorem X7_JobDraft_against_Job (params : gmap string value) :
  (JobDraft.checkCriteria params = Ok tt <->
   recognized JobDraft.criteria params /\
   Js.truthy (Js.get params "hasEquity") = false) /\
  (JobDraft.checkCriteria params = Ok tt -> Job.checkCriteria params = Ok tt) /\
  (Js.get params "hasEquity" <> JStr "true" ->
   JobDraft.createSearchSqlStatement params = Job.createSearchSqlStatement params).
Proof.
  assert (JobDraft.checkCriteria params = Ok tt <->
          recognized JobDraft.criteria params /\
          Js.truthy (Js.get params "hasEquity") = false) as Hiff.
  { unfold JobDraft.checkCriteria.
    destruct (checkKeys_cases JobDraft.criteria (Js.keys params)) as [Hok|Hthrow].
    - pose proof (proj1 (checkKeys_ok_iff _ _) Hok) as Hrec. rewrite Hok. simpl.
      destruct (Js.truthy (Js.get params "hasEquity")); [|by split].
      rewrite !strict_eq_string.
      destruct (decide (Js.get params "hasEquity" = JStr "true")) as [Ht|Ht].
      + rewrite Ht. simpl. split; [discriminate|intros [_ ?]; discriminate].
      + rewrite (bool_decide_eq_false_2 _ Ht). simpl.
        split; [discriminate|intros [_ ?]; discriminate].
    - rewrite Hthrow. simpl. split; [discriminate|]. intros [Hrec _].
      by apply checkKeys_throws_iff in Hthrow. }
  split; [exact Hiff|]. split.
  - intros Hdraft. apply Hiff in Hdraft as [Hrec Hfalsy].
    unfold Job.checkCriteria.
    rewrite (checkKeys_recognized Job.criteria params Hrec). simpl.
    by rewrite Hfalsy.
  - intros Hne.
    unfold JobDraft.createSearchSqlStatement, Job.createSearchSqlStatement,
      JobDraft.searchArrays, Job.searchArrays.
    rewrite !strict_eq_string, (bool_decide_eq_false_2 _ Hne). reflexivity.
Qed.

Lemma X7_witness :
  Job.checkCriteria {[ "title" := JStr "j" ]} = Ok tt /\
  JobDraft.createSearchSqlStatement {[ "hasEquity" := JStr "false" ]}
  = Job.createSearchSqlStatement {[ "hasEquity" := JStr "false" ]}.
Proof.
  split.
  - apply (X7_JobDraft_against_Job {[ "title" := JStr "j" ]}). by_evaluation.
  - apply (X7_JobDraft_against_Job {[ "hasEquity" := JStr "false" ]}).
    vm_compute. discriminate.
Defined.

(** ** Numeric bounds *)

Lemma truthy_nonzero (n : Z) : n <> 0%Z -> Js.truthy (JNum n) = true.
Proof. intros Hn. simpl. by destruct (Z.eqb_spec n 0). Qed.

(** X8. A bound given as a safe integer other than 0 is bound as that
    very number, next to the fragment of its criterion: [parseInt] gives
    such a number back unchanged.  It holds for minEmployees and
    maxEmployees of the company filter and for minSalary of the job
    filter. *)
Theorem X8_numeric_bound_kept (params : gmap string value) (n : Z) :
  n <> 0%Z -> safe_integer n ->
  (Js.get params "minEmployees" = JNum n ->
   (Company.searchArrays params).1 !! 0 = Some "num_employees >= $1" /\
   (Company.searchArrays params).2 !! 0 = Some (JNum n)) /\
  (Js.get params "maxEmployees" = JNum n ->
   exists i,
     (Company.searchArrays params).1 !! i
       = Some ("num_employees <= $" +:+ Js.showNat (S i)) /\
     (Company.searchArrays params).2 !! i = Some (JNum n)) /\
  (Js.get params "minSalary" = JNum n ->
   exists i,
     (Job.searchArrays params).1 !! i = Some ("salary >= $" +:+ Js.showNat (S i)) /\
     (Job.searchArrays params).2 !! i = Some (JNum n)).
Proof.
  intros Hn _. pose proof (truthy_nonzero n Hn) as Htruthy.
  split; [|split]; intros Hraw.
  - unfold Company.searchArrays. rewrite Hraw, Htruthy, parseInt_number.
    destruct (Js.truthy (Js.get params "maxEmployees")),
             (Js.truthy (Js.get params "name")); split; reflexivity.
  - unfold Company.searchArrays. rewrite Hraw, Htruthy, parseInt_number.
    destruct (Js.truthy (Js.get params "minEmployees"));
      [exists 1|exists 0];
      destruct (Js.truthy (Js.get params "name")); split; reflexivity.
  - unfold Job.searchArrays. rewrite Hraw, Htruthy, parseInt_number.
    destruct (Js.truthy (Js.get params "title"));
      [exists 1|exists 0];
      destruct (Js.strict_eq (Js.get params "hasEquity") (JStr "true"));
      split; reflexivity.
Qed.

Lemma X8_witness :
  (Company.searchArrays {[ "minEmployees" := JNum 7 ]}).2 !! 0 = Some (JNum 7).
Proof.
  apply (X8_numeric_bound_kept {[ "minEmployees" := JNum 7 ]} 7);
    [lia|unfold safe_integer; lia|reflexivity].
Defined.

(** ** Keyed selections *)

Lemma head_filter_None {A : Type} (f : A -> bool) (l : list A) :
  head (List.filter f l) = None <-> forall x, x ∈ l -> f x = false.
Proof.
  induction l as [|y l IH]; simpl.
  - split; [intros _ x Hx; inversion Hx|reflexivity].
  - destruct (f y) eqn:Hy; simpl.
    + split; [discriminate|]. intros Hall.
      rewrite (Hall y) in Hy by left. discriminate.
    + rewrite IH. split.
      * intros Hall x Hx. apply elem_of_cons in Hx as [->|Hx]; auto.
      * intros Hall x Hx. apply Hall. by right.
Qed.

Lemma head_filter_Some {A : Type} (f : A -> bool) (l : list A) (x : A) :
  head (List.filter f l) = Some x -> x ∈ l /\ f x = true.
Proof.
  intros Hhead. apply head_Some_elem_of in Hhead.
  apply list_elem_of_In, List.filter_In in Hhead as [Hin Hf].
  split; [by apply list_elem_of_In|exact Hf].
Qed.

Lemma head_filter_is_Some {A : Type} (f : A -> bool) (l : list A) (x : A) :
  x ∈ l -> f x = true -> is_Some (head (List.filter f l)).
Proof.
  intros Hin Hf. destruct (head (List.filter f l)) eqn:Hhead; [by eexists|].
  rewrite head_filter_None in Hhead. rewrite (Hhead x Hin) in Hf. discriminate.
Qed.

Lemma satisfies_user_job (username : string) (jobId : Z) (r : User.application) :
  User.satisfies [(User.col_username, JStr username); (User.col_job_id, JNum jobId)] r
  = true
  <-> User.username r = username /\ User.job_id r = jobId.
Proof.
  unfold User.satisfies. simpl. rewrite !andb_true_iff, !bool_decide_eq_true.
  split.
  - intros (Hu & Hj & _). split; congruence.
  - intros [-> ->]. done.
Qed.

Lemma satisfies_user (username : string) (r : User.application) :
  User.satisfies [(User.col_username, JStr username)] r = true
  <-> User.username r = username.
Proof.
  unfold User.satisfies. simpl. rewrite andb_true_iff, bool_decide_eq_true.
  split; [intros [Hu _]; congruence|intros ->; done].
Qed.

Lemma select_application (username : string) (jobId : Z)
    (table : list User.application) :
  is_Some (head (User.select_rows
                   [(User.col_username, JStr username); (User.col_job_id, JNum jobId)]
                   table))
  <-> applied table username jobId.
Proof.
  unfold User.select_rows, applied. split.
  - intros [r Hr]. apply head_filter_Some in Hr as [Hin Hsat].
    apply satisfies_user_job in Hsat. eauto.
  - intros (r & Hin & Hu & Hj).
    apply (head_filter_is_Some _ _ r Hin). by apply satisfies_user_job.
Qed.

Lemma applied_dec (table : list User.application) (username : string) (jobId : Z) :
  applied table username jobId \/ ~ applied table username jobId.
Proof.
  rewrite <- select_application.
  destruct (head (User.select_rows _ table)); [left; by eexists|right].
  by intros [? ?].
Qed.

Lemma set_state_key (s : string) (r : User.application) :
  application_key (User.set_state s r) = application_key r.
Proof. reflexivity. Qed.

Lemma applied_set_state (s : string) (table : list User.application)
    (username : string) (jobId : Z) :
  applied (User.set_state s <$> table) username jobId <-> applied table username jobId.
Proof.
  unfold applied. split.
  - intros (r & Hin & Hu & Hj).
    apply list_elem_of_fmap in Hin as (r0 & -> & Hin). eauto.
  - intros (r & Hin & Hu & Hj). exists (User.set_state s r).
    split; [by apply list_elem_of_fmap_2|by split].
Qed.

(** How [User.updateJobApplication] runs in each of its two cases. *)
Lemma updateJobApplication_found (username : string) (jobId : Z) (newState : string)
    (table : list User.application) :
  applied table username jobId ->
  User.updateJobApplication username jobId newState table
  = (Ok (User.set_state newState <$> head table), User.set_state newState <$> table).
Proof.
  intros Happlied. apply select_application in Happlied as [r Hr].
  unfold User.updateJobApplication. rewrite Hr.
  unfold User.update_rows. simpl. rewrite filter_all. f_equal. by destruct table.
Qed.

Lemma updateJobApplication_missing (username : string) (jobId : Z) (newState : string)
    (table : list User.application) :
  ~ applied table username jobId ->
  User.updateJobApplication username jobId newState table
  = (Throw (NotFoundError "Application not found"), table).
Proof.
  intros Hnot. unfold User.updateJobApplication.
  destruct (head (User.select_rows _ table)) as [r|] eqn:Hhead; [|reflexivity].
  exfalso. apply Hnot, select_application. by eexists.
Qed.

(** ** More on the application update *)


(** X10. Whatever its outcome, [User.updateJobApplication] keeps the
    number of rows and the user and job of every row, in order: only
    states change. *)
Theorem X10_update_keeps_keys (username : string) (jobId : Z) (newState : string)
    (table : list User.application) :
  let table' := (User.updateJobApplication username jobId newState table).2 in
  length table' = length table /\
  application_key <$> table' = application_key <$> table.
Proof.
  simpl. destruct (applied_dec table username jobId) as [Happlied|Hnot].
  - rewrite (updateJobApplication_found _ _ _ _ Happlied). simpl.
    split; [apply length_fmap|].
    rewrite <- list_fmap_compose. apply list_fmap_ext. intros i r _. reflexivity.
  - rewrite (updateJobApplication_missing _ _ _ _ Hnot). by split.
Qed.

(** X11. Repeating a call of [User.updateJobApplication] with the same
    arguments on the table it left gives the same result and the same
    table again. *)
Theorem X11_update_twice (username : string) (jobId : Z) (newState : string)
    (table : list User.application) :
  User.updateJobApplication username jobId newState
    (User.updateJobApplication username jobId newState table).2
  = User.updateJobApplication username jobId newState table.
Proof.
  destruct (applied_dec table username jobId) as [Happlied|Hnot].
  - rewrite (updateJobApplication_found _ _ _ _ Happlied). simpl.
    rewrite updateJobApplication_found by (by apply applied_set_state).
    f_equal.
    + f_equal. by destruct table.
    + rewrite <- list_fmap_compose. apply list_fmap_ext. intros i r _. reflexivity.
  - rewrite (updateJobApplication_missing _ _ _ _ Hnot). simpl.
    by apply updateJobApplication_missing.
Qed.

(** X12. When two applications exist, updating the second after the first
    leaves every row of the table, the first application included, in the
    state given to the second: the state of the first update is lost. *)
Theorem X12_later_update_overwrites (u1 u2 : string) (j1 j2 : Z) (s1 s2 : string)
    (table : list User.application) :
  applied table u1 j1 -> applied table u2 j2 ->
  let table1 := (User.updateJobApplication u1 j1 s1 table).2 in
  (User.updateJobApplication u2 j2 s2 table1).2 = User.set_state s2 <$> table /\
  forall r, r ∈ (User.updateJobApplication u2 j2 s2 table1).2 ->
            User.current_state r = s2.
Proof.
  intros H1 H2. simpl.
  rewrite (updateJobApplication_found _ _ _ _ H1). simpl.
  rewrite updateJobApplication_found by (by apply applied_set_state). simpl.
  assert (User.set_state s2 <$> (User.set_state s1 <$> table)
          = User.set_state s2 <$> table) as Heq.
  { rewrite <- list_fmap_compose. apply list_fmap_ext. intros i r _. reflexivity. }
  split; [exact Heq|]. rewrite Heq. intros r Hr.
  apply list_elem_of_fmap in Hr as (r0 & -> & _). reflexivity.
Qed.

Lemma X12_witness :
  (User.updateJobApplication "u2" 2 "rejected"
     (User.updateJobApplication "u1" 1 "accepted"
        [ {| User.username := "u1"; User.job_id := 1; User.current_state := "applied" |};
          {| User.username := "u2"; User.job_id := 2; User.current_state := "applied" |} ]).2).2
  = [ {| User.username := "u1"; User.job_id := 1; User.current_state := "rejected" |};
      {| User.username := "u2"; User.job_id := 2; User.current_state := "rejected" |} ].
Proof.
  apply (X12_later_update_overwrites "u1" "u2" 1 2 "accepted" "rejected").
  - eexists. split; [left|split; reflexivity].
  - eexists. split; [right; left|split; reflexivity].
Defined.

(** ** Keyed reads *)

Lemma elem_of_filter_list {A : Type} (f : A -> bool) (l : list A) (x : A) :
  x ∈ List.filter f l <-> x ∈ l /\ f x = true.
Proof. rewrite !list_elem_of_In. apply List.filter_In. Qed.

Lemma filter_nil_iff {A : Type} (f : A -> bool) (l : list A) :
  List.filter f l = [] <-> forall x, x ∈ l -> f x = false.
Proof.
  rewrite <- head_filter_None. destruct (List.filter f l); simpl; split; done.
Qed.


Lemma bool_decide_false_iff (P : Prop) `{Decision P} :
  bool_decide P = false <-> ~ P.
Proof. apply bool_decide_eq_false. Qed.


(** X14. For an id within the range of the id column, [Job.get] throws
    NotFoundError("No job with id: <id>.") exactly when no job has the id;
    what it returns is a row of the table with that id, and it returns
    whenever a job has the id. *)
Theorem X14_Job_get (jobs : list Db.job) (id : Z) :
  (column_integer id ->
   (Job.get jobs id = Throw (NotFoundError ("No job with id: " +:+ Js.showZ id +:+ "."))
    <-> forall j, j ∈ jobs -> Db.id j <> id)) /\
  (forall j, Job.get jobs id = Ok j -> j ∈ jobs /\ Db.id j = id) /\
  ((exists j, j ∈ jobs /\ Db.id j = id) -> exists j, Job.get jobs id = Ok j).
Proof.
  unfold Job.get.
  destruct (head (List.filter _ jobs)) as [j0|] eqn:Hhead.
  - apply head_filter_Some in Hhead as [Hin Hid]. apply bool_decide_eq_true in Hid.
    split; [|split].
    + intros _. split; [discriminate|]. intros Hall. by destruct (Hall j0 Hin).
    + intros j [= <-]. by split.
    + intros _. by eexists.
  - rewrite head_filter_None in Hhead. split; [|split].
    + intros _. split; [|reflexivity]. intros _ j Hj Hid. specialize (Hhead j Hj).
      apply bool_decide_eq_false in Hhead. contradiction.
    + intros j [=].
    + intros (j & Hj & Hid). specialize (Hhead j Hj).
      apply bool_decide_eq_false in Hhead. contradiction.
Qed.

Lemma X14_witness :
  (exists j,
     Job.get [ {| Db.id := 3; Db.title := "j3"; Db.salary := Some 3%Z;
                  Db.equity := None; Db.company_handle := "c3" |} ] 3
     = Ok j) /\
  Job.get [ {| Db.id := 3; Db.title := "j3"; Db.salary := Some 3%Z;
               Db.equity := None; Db.company_handle := "c3" |} ] 4
  = Throw (NotFoundError "No job with id: 4.").
Proof.
  split.
  - apply (X14_Job_get _ 3). eexists. split; [left|reflexivity].
  - apply (X14_Job_get _ 4); [unfold column_integer; lia|].
    intros j Hj. apply list_elem_of_singleton in Hj. subst j. discriminate.
Defined.


(** ** Applying for a job *)

Lemma User_get_missing (users : list Db.user) (applications : list User.application)
    (username : string) :
  (forall u, u ∈ users -> Db.username u <> username) ->
  User.get users applications username = Throw (NotFoundError ("No user: " +:+ username)).
Proof.
  intros Hnone. unfold User.get.
  destruct (head (List.filter _ users)) as [u|] eqn:Hhead; [|reflexivity].
  apply head_filter_Some in Hhead as [Hin Hu]. apply bool_decide_eq_true in Hu.
  by destruct (Hnone u Hin).
Qed.

Lemma User_get_found (users : list Db.user) (applications : list User.application)
    (username : string) :
  (exists u, u ∈ users /\ Db.username u = username) ->
  exists p, User.get users applications username = Ok p.
Proof.
  intros (u & Hin & Hu). unfold User.get.
  destruct (head_filter_is_Some
              (fun u => bool_decide (Db.username u = username)) users u Hin)
    as [u0 ->]; [by apply bool_decide_eq_true|].
  by eexists.
Qed.

Lemma Job_get_missing (jobs : list Db.job) (id : Z) :
  (forall j, j ∈ jobs -> Db.id j <> id) ->
  Job.get jobs id = Throw (NotFoundError ("No job with id: " +:+ Js.showZ id +:+ ".")).
Proof.
  intros Hnone. unfold Job.get.
  destruct (head (List.filter _ jobs)) as [j|] eqn:Hhead; [|reflexivity].
  apply head_filter_Some in Hhead as [Hin Hid]. apply bool_decide_eq_true in Hid.
  by destruct (Hnone j Hin).
Qed.

Lemma Job_get_found (jobs : list Db.job) (id : Z) :
  (exists j, j ∈ jobs /\ Db.id j = id) -> exists j, Job.get jobs id = Ok j.
Proof.
  intros (j & Hin & Hid). unfold Job.get.
  destruct (head_filter_is_Some (fun j => bool_decide (Db.id j = id)) jobs j Hin)
    as [j0 ->]; [by apply bool_decide_eq_true|].
  by eexists.
Qed.

Lemma user_dec (users : list Db.user) (username : string) :
  (exists u, u ∈ users /\ Db.username u = username) \/
  (forall u, u ∈ users -> Db.username u <> username).
Proof.
  destruct (head (List.filter (fun u => bool_decide (Db.username u = username)) users))
    as [u|] eqn:Hhead.
  - apply head_filter_Some in Hhead as [Hin Hu]. apply bool_decide_eq_true in Hu.
    left. eauto.
  - right. intros u Hu. rewrite head_filter_None in Hhead.
    specialize (Hhead u Hu). by apply bool_decide_eq_false in Hhead.
Qed.

Lemma job_dec (jobs : list Db.job) (id : Z) :
  (exists j, j ∈ jobs /\ Db.id j = id) \/ (forall j, j ∈ jobs -> Db.id j <> id).
Proof.
  destruct (head (List.filter (fun j => bool_decide (Db.id j = id)) jobs))
    as [j|] eqn:Hhead.
  - apply head_filter_Some in Hhead as [Hin Hj]. apply bool_decide_eq_true in Hj.
    left. eauto.
  - right. intros j Hj. rewrite head_filter_None in Hhead.
    specialize (Hhead j Hj). by apply bool_decide_eq_false in Hhead.
Qed.

Section ApplyForJob.
Variable users : list Db.user.
Variable jobs : list Db.job.
Variable applications : list User.application.
Variable username : string.
Variable jobId : Z.

Lemma applyForJob_no_user :
  (forall u, u ∈ users -> Db.username u <> username) ->
  User.applyForJob users jobs applications username jobId
  = (User.Done (Throw (NotFoundError ("No user: " +:+ username))), applications).
Proof.
  intros Hnone. unfold User.applyForJob.
  by rewrite (User_get_missing _ _ _ Hnone).
Qed.

Lemma applyForJob_no_job :
  (exists u, u ∈ users /\ Db.username u = username) ->
  (forall j, j ∈ jobs -> Db.id j <> jobId) ->
  User.applyForJob users jobs applications username jobId
  = (User.Done (Throw (NotFoundError ("No job with id: " +:+ Js.showZ jobId +:+ "."))),
     applications).
Proof.
  intros Huser Hnone. unfold User.applyForJob.
  destruct (User_get_found users applications username Huser) as [p ->].
  by rewrite (Job_get_missing _ _ Hnone).
Qed.

Lemma applyForJob_duplicate :
  (exists u, u ∈ users /\ Db.username u = username) ->
  (exists j, j ∈ jobs /\ Db.id j = jobId) ->
  applied applications username jobId ->
  User.applyForJob users jobs applications username jobId
  = (User.Done (Throw (BadRequestError
                 ("Duplicate application: " +:+ username +:+ " for job id "
                  +:+ Js.showZ jobId))),
     applications).
Proof.
  intros Huser Hjob Happlied. unfold User.applyForJob.
  destruct (User_get_found users applications username Huser) as [p ->].
  destruct (Job_get_found jobs jobId Hjob) as [j ->].
  rewrite parseInt_number.
  apply select_application in Happlied as [r ->]. reflexivity.
Qed.

Lemma applyForJob_fresh :
  (exists u, u ∈ users /\ Db.username u = username) ->
  (exists j, j ∈ jobs /\ Db.id j = jobId) ->
  ~ applied applications username jobId ->
  User.applyForJob users jobs applications username jobId
  = (User.Done (Ok (new_application username jobId)),
     (applications ++ [new_application username jobId])%list).
Proof.
  intros Huser Hjob Hnot. unfold User.applyForJob.
  destruct (User_get_found users applications username Huser) as [p ->].
  destruct (Job_get_found jobs jobId Hjob) as [j ->].
  rewrite parseInt_number.
  destruct (head (User.select_rows _ applications)) as [r|] eqn:Hhead; [|reflexivity].
  exfalso. apply Hnot, select_application. by eexists.
Qed.

(** A call that returns was made in the fresh case. *)
Lemma applyForJob_returned (r : User.application) (table' : list User.application) :
  User.applyForJob users jobs applications username jobId = (User.Done (Ok r), table') ->
  (exists u, u ∈ users /\ Db.username u = username) /\
  (exists j, j ∈ jobs /\ Db.id j = jobId) /\
  ~ applied applications username jobId /\
  r = new_application username jobId /\
  table' = (applications ++ [new_application username jobId])%list.
Proof.
  intros Hrun.
  destruct (user_dec users username) as [Huser|Huser];
    [|rewrite (applyForJob_no_user Huser) in Hrun; discriminate].
  destruct (job_dec jobs jobId) as [Hjob|Hjob];
    [|rewrite (applyForJob_no_job Huser Hjob) in Hrun; discriminate].
  destruct (applied_dec applications username jobId) as [Happlied|Hnot];
    [rewrite (applyForJob_duplicate Huser Hjob Happlied) in Hrun; discriminate|].
  rewrite (applyForJob_fresh Huser Hjob Hnot) in Hrun.
  injection Hrun as <- <-. done.
Qed.

(** Every call ends in one of two ways. *)
Lemma applyForJob_cases :
  User.applyForJob users jobs applications username jobId
  = (User.Done (Ok (new_application username jobId)),
     (applications ++ [new_application username jobId])%list) \/
  exists e,
    User.applyForJob users jobs applications username jobId
    = (User.Done (Throw e), applications).
Proof.
  destruct (user_dec users username) as [Huser|Huser];
    [|right; eexists; by apply applyForJob_no_user].
  destruct (job_dec jobs jobId) as [Hjob|Hjob];
    [|right; eexists; by apply applyForJob_no_job].
  destruct (applied_dec applications username jobId) as [Happlied|Hnot];
    [right; eexists; by apply applyForJob_duplicate|].
  left. by apply applyForJob_fresh.
Qed.

End ApplyForJob.



(** X17. [User.applyForJob] writes exactly when the user exists, the job
    exists and the user has no application for it yet: then, and only
    then, it appends the row (username, jobId, 'applied') and returns it.
    In every other case the table is left as it was. *)
Theorem X17_applyForJob_writes_iff (users : list Db.user)
    (jobs : list Db.job) (applications : list User.application)
    (username : string) (jobId : Z) :
  let run := User.applyForJob users jobs applications username jobId in
  let fresh :=
    (exists u, u ∈ users /\ Db.username u = username) /\
    (exists j, j ∈ jobs /\ Db.id j = jobId) /\
    ~ applied applications username jobId in
  (run = (User.Done (Ok (new_application username jobId)),
          (applications ++ [new_application username jobId])%list)
   <-> fresh) /\
  (~ fresh -> run.2 = applications).
Proof.
  simpl. split.
  - split.
    + intros Hrun. apply applyForJob_returned in Hrun as (Hu & Hj & Hnot & _).
      done.
    + intros (Hu & Hj & Hnot). by apply applyForJob_fresh.
  - intros Hnot.
    destruct (applyForJob_cases users jobs applications username jobId)
      as [Hrun|[e Hrun]]; [|by rewrite Hrun].
    exfalso. apply Hnot.
    apply applyForJob_returned in Hrun as (Hu & Hj & Hfresh & _). done.
Qed.

Lemma X17_witness :
  (User.applyForJob
     [ {| Db.username := "u1"; Db.password := "x"; Db.first_name := "U";
          Db.last_name := "One"; Db.email := "u1@mail"; Db.is_admin := false |} ]
     [ {| Db.id := 3; Db.title := "j3"; Db.salary := Some 3%Z;
          Db.equity := None; Db.company_handle := "c3" |} ]
     [new_application "u1" 3] "u1" 3).2
  = [new_application "u1" 3].
Proof.
  apply (X17_applyForJob_writes_iff _ _ [new_application "u1" 3] "u1" 3).
  intros (_ & _ & Hnot). apply Hnot.
  exists (new_application "u1" 3). split; [left|split; reflexivity].
Defined.

(** X18. Applying a second time after a call that returned throws
    BadRequestError("Duplicate application: ...") and adds nothing. *)
Theorem X18_applyForJob_twice (users : list Db.user) (jobs : list Db.job)
    (applications table' : list User.application) (username : string) (jobId : Z)
    (r : User.application) :
  User.applyForJob users jobs applications username jobId = (User.Done (Ok r), table') ->
  User.applyForJob users jobs table' username jobId
  = (User.Done (Throw (BadRequestError
                 ("Duplicate application: " +:+ username +:+ " for job id "
                  +:+ Js.showZ jobId))),
     table').
Proof.
  intros Hrun.
  apply applyForJob_returned in Hrun as (Huser & Hjob & _ & _ & ->).
  apply applyForJob_duplicate; [exact Huser|exact Hjob|].
  exists (new_application username jobId).
  split; [apply elem_of_app; right; left|by split].
Qed.

Lemma X18_witness :
  User.applyForJob
    [ {| Db.username := "u1"; Db.password := "x"; Db.first_name := "U";
         Db.last_name := "One"; Db.email := "u1@mail"; Db.is_admin := false |} ]
    [ {| Db.id := 3; Db.title := "j3"; Db.salary := Some 3%Z;
         Db.equity := None; Db.company_handle := "c3" |} ]
    [new_application "u1" 3] "u1" 3
  = (User.Done (Throw (BadRequestError "Duplicate application: u1 for job id 3")),
     [new_application "u1" 3]).
Proof.
  apply (X18_applyForJob_twice _ _ [] _ "u1" 3 (new_application "u1" 3)).
  by_evaluation.
Defined.

(** X19. [User.applyForJob] keeps the applications unique: if no two rows
    of the table are of the same user for the same job, the same holds of
    the table it leaves. *)
Theorem X19_applyForJob_keeps_keys_unique (users : list Db.user) (jobs : list Db.job)
    (applications : list User.application) (username : string) (jobId : Z) :
  NoDup (application_key <$> applications) ->
  NoDup (application_key <$>
           (User.applyForJob users jobs applications username jobId).2).
Proof.
  intros Hunique.
  destruct (applyForJob_cases users jobs applications username jobId)
    as [Hrun|[e Hrun]]; [|by rewrite Hrun].
  pose proof Hrun as Hret. apply applyForJob_returned in Hret as (_ & _ & Hnot & _).
  rewrite Hrun. simpl. rewrite fmap_app. apply NoDup_app.
  split; [exact Hunique|]. split; [|apply NoDup_singleton].
  intros key Hkey Hnew. apply list_elem_of_singleton in Hnew. subst key.
  apply list_elem_of_fmap in Hkey as (r & Hr & Hin).
  apply Hnot. exists r. unfold application_key in Hr. simpl in Hr.
  injection Hr as Hu Hj. by split.
Qed.

Lemma X19_witness :
  NoDup (application_key <$>
           (User.applyForJob
              [ {| Db.username := "u1"; Db.password := "x"; Db.first_name := "U";
              Db.last_name := "One"; Db.email := "u1@mail"; Db.is_admin := false |} ]
              [ {| Db.id := 3; Db.title := "j3"; Db.salary := Some 3%Z;
              Db.equity := None; Db.company_handle := "c3" |} ]
              [new_application "u2" 3] "u1" 3).2).
Proof.
  apply X19_applyForJob_keeps_keys_unique. simpl. apply NoDup_singleton.
Defined.

(** X20. [User.applyForJob] keeps the references sound: if every
    application of the table is of an existing user for an existing job,
    so is every application of the table it leaves. *)
Theorem X20_applyForJob_keeps_references (users : list Db.user) (jobs : list Db.job)
    (applications : list User.application) (username : string) (jobId : Z) :
  references_exist users jobs applications ->
  references_exist users jobs
    (User.applyForJob users jobs applications username jobId).2.
Proof.
  intros Hrefs.
  destruct (applyForJob_cases users jobs applications username jobId)
    as [Hrun|[e Hrun]]; [|by rewrite Hrun].
  pose proof Hrun as Hret.
  apply applyForJob_returned in Hret as (Huser & Hjob & _).
  rewrite Hrun. simpl. intros r Hr.
  apply elem_of_app in Hr as [Hr|Hr]; [by apply Hrefs|].
  apply list_elem_of_singleton in Hr. subst r. by split.
Qed.

Lemma X20_witness :
  references_exist
    [ {| Db.username := "u1"; Db.password := "x"; Db.first_name := "U";
              Db.last_name := "One"; Db.email := "u1@mail"; Db.is_admin := false |} ]
    [ {| Db.id := 3; Db.title := "j3"; Db.salary := Some 3%Z;
              Db.equity := None; Db.company_handle := "c3" |} ]
    (User.applyForJob
       [ {| Db.username := "u1"; Db.password := "x"; Db.first_name := "U";
              Db.last_name := "One"; Db.email := "u1@mail"; Db.is_admin := false |} ]
       [ {| Db.id := 3; Db.title := "j3"; Db.salary := Some 3%Z;
              Db.equity := None; Db.company_handle := "c3" |} ]
       [] "u1" 3).2.
Proof.
  apply X20_applyForJob_keeps_references. intros r Hr. inversion Hr.
Defined.

(** X21. After a call of [User.applyForJob] that returned, [User.get] of
    the same user returns a profile whose [jobs] lists the job. *)
Theorem X21_applied_job_is_listed (users : list Db.user) (jobs : list Db.job)
    (applications table' : list User.application) (username : string) (jobId : Z)
    (r : User.application) :
  User.applyForJob users jobs applications username jobId = (User.Done (Ok r), table') ->
  exists p l,
    User.get users table' username = Ok p /\ User.jobs p = Some l /\ jobId ∈ l.
Proof.
  intros Hrun.
  apply applyForJob_returned in Hrun as (Huser & _ & _ & _ & ->).
  destruct Huser as (u & Hin & Hu). unfold User.get.
  destruct (head_filter_is_Some
              (fun u => bool_decide (Db.username u = username)) users u Hin)
    as [u0 ->]; [by apply bool_decide_eq_true|].
  set (mine := User.select_rows [(User.col_username, JStr username)]
                 (applications ++ [new_application username jobId])).
  assert (new_application username jobId ∈ mine) as Hmine.
  { unfold mine, User.select_rows. apply elem_of_filter_list.
    split; [apply elem_of_app; right; left|by apply satisfies_user]. }
  destruct mine as [|r0 rest] eqn:Hl; [inversion Hmine|].
  eexists _, _. split; [reflexivity|]. simpl. split; [reflexivity|].
  change (jobId ∈ User.job_id <$> r0 :: rest).
  apply list_elem_of_fmap. by exists (new_application username jobId).
Qed.

Lemma X21_witness :
  exists p l,
    User.get
      [ {| Db.username := "u1"; Db.password := "x"; Db.first_name := "U";
           Db.last_name := "One"; Db.email := "u1@mail"; Db.is_admin := false |} ]
      [new_application "u1" 3] "u1"
    = Ok p /\ User.jobs p = Some l /\ 3%Z ∈ l.
Proof.
  apply (X21_applied_job_is_listed _
           [ {| Db.id := 3; Db.title := "j3"; Db.salary := Some 3%Z;
                Db.equity := None; Db.company_handle := "c3" |} ]
           [] _ "u1" 3 (new_application "u1" 3)).
  by_evaluation.
Defined.

(** X22. After a call of [User.applyForJob] that returned,
    [User.updateJobApplication] for the same user and job does not throw:
    it gives the new state to every row of the table, the applications
    that were there before included. *)
Theorem X22_update_after_apply (users : list Db.user) (jobs : list Db.job)
    (applications table' : list User.application) (username : string) (jobId : Z)
    (r : User.application) (newState : string) :
  User.applyForJob users jobs applications username jobId = (User.Done (Ok r), table') ->
  User.updateJobApplication username jobId newState table'
  = (Ok (User.set_state newState <$> head table'),
     (User.set_state newState <$> applications)
       ++ [User.set_state newState (new_application username jobId)])%list.
Proof.
  intros Hrun.
  apply applyForJob_returned in Hrun as (_ & _ & _ & _ & ->).
  rewrite updateJobApplication_found.
  - by rewrite fmap_app.
  - exists (new_application username jobId).
    split; [apply elem_of_app; right; left|by split].
Qed.

Lemma X22_witness :
  User.updateJobApplication "u1" 3 "accepted" [new_application "u1" 3]
  = (Ok (Some (User.set_state "accepted" (new_application "u1" 3))),
     [User.set_state "accepted" (new_application "u1" 3)]).
Proof.
  apply (X22_update_after_apply
           [ {| Db.username := "u1"; Db.password := "x"; Db.first_name := "U";
                Db.last_name := "One"; Db.email := "u1@mail"; Db.is_admin := false |} ]
           [ {| Db.id := 3; Db.title := "j3"; Db.salary := Some 3%Z;
                Db.equity := None; Db.company_handle := "c3" |} ]
           [] [new_application "u1" 3] "u1" 3 (new_application "u1" 3) "accepted").
  by_evaluation.
Defined.
